(** * Spectral cube reprojection notebook: a shallow embedding

    The repository is one notebook, [SpectralCubeReprojectExample.ipynb].
    Its code cells are a straight-line sequence of calls into external
    libraries (astropy, spectral-cube, radio-beam, numpy).  The embedding
    follows the cells in order:

    - numbers are Python floats, modelled as real numbers extended with
      [NaN], and as IEEE doubles ([Double]) where overflow and underflow
      decide the outcome; velocities are values in km/s;
    - the external cube libraries are an interface ([SpectralCubeAPI]),
      with one instance per backend (in memory and dask);
    - the process state ([World]) holds the download cache, the log of
      network accesses and the heap of mutable FITS header objects;
    - Python exceptions are an error result. *)

From Stdlib Require Import Reals Lra Lia.
From Stdlib Require Floats.
From stdpp Require Import base option list gmap strings.

Local Open Scope R_scope.

(** ** Python floats and exceptions *)

(** A float is a real number or [NaN].  Python's floats are IEEE
    doubles: the embedding on real numbers follows the code up to
    rounding, and as long as no operation overflows or underflows;
    infinities are not modelled.  [Double], below, has the kernel width
    on doubles. *)
Inductive pyfloat : Type :=
  | Finite (r : R)
  | NaN.

Definition is_real (x : pyfloat) : Prop :=
  match x with Finite _ => True | NaN => False end.

(** [x ** 0.5] on a float: the square root, [NaN] for a negative base. *)
Definition pow_half (x : R) : pyfloat :=
  if Rle_dec 0 x then Finite (sqrt x) else NaN.

(** [x / d] for a float [x] and a nonzero constant [d]; [NaN] propagates. *)
Definition float_div (x : pyfloat) (d : R) : pyfloat :=
  match x with Finite r => Finite (r / d) | NaN => NaN end.

Inductive exn : Type := IndexError | ValueError | KeyError.

Inductive result (A : Type) : Type :=
  | Ok (a : A)
  | Raise (e : exn).
Arguments Ok {A} a.
Arguments Raise {A} e.

(** ** numpy on one-dimensional arrays *)

(** [np.diff(a)]: the differences of consecutive entries. *)
Fixpoint np_diff (a : list R) : list R :=
  match a with
  | x :: (y :: _) as t => (y - x) :: np_diff t
  | _ => []
  end.

(** [a[0]]: raises [IndexError] on an empty array. *)
Definition getitem0 (a : list R) : result R :=
  match a with
  | x :: _ => Ok x
  | [] => Raise IndexError
  end.

(** [a.min()] and [a.max()]: raise [ValueError] on an empty array. *)
Definition np_min (a : list R) : result R :=
  match a with
  | x :: t => Ok (fold_left Rmin t x)
  | [] => Raise ValueError
  end.

Definition np_max (a : list R) : result R :=
  match a with
  | x :: t => Ok (fold_left Rmax t x)
  | [] => Raise ValueError
  end.

(** ** Step 4, numeric parameters (cells 25, 31, 32) *)

(** [np.diff(cube.spectral_axis)[0]], for a spectral axis in km/s. *)
Definition velocity_res (spectral_axis : list R) : result R :=
  getitem0 (np_diff spectral_axis).

(** [fwhm_gaussian = (velocity_res_1**2 - velocity_res_2**2) ** 0.5] *)
Definition fwhm_gaussian (velocity_res_1 velocity_res_2 : R) : pyfloat :=
  pow_half (velocity_res_1 ^ 2 - velocity_res_2 ^ 2).

(** [fwhm_to_sigma = np.sqrt(8 * np.log(2))] *)
Definition fwhm_to_sigma : R := sqrt (8 * ln 2).

(** The [stddev] argument of [Gaussian1DKernel]:
    [fwhm_gaussian.to(u.km / u.s).value / fwhm_to_sigma].  The quantity
    is already in km/s, so [.to(u.km / u.s).value] is its number. *)
Definition kernel_stddev (fwhm : pyfloat) : pyfloat :=
  float_div fwhm fwhm_to_sigma.

(** Widths of Gaussians add in quadrature under convolution: the width
    of the convolution of Gaussians of widths [a] and [b]. *)
Definition convolved_width (a b : R) : R := sqrt (a ^ 2 + b ^ 2).

(** ** Units, headers, kernels *)

(** [u.GHz] and [u.km / u.s]. *)
Inductive unit_ : Type := GHz | km_per_s.

(** [139.483699 * u.GHz]: a number with a unit. *)
Record Quantity : Type := mkQuantity { value : R; q_unit : unit_ }.

Definition rest_value_H2CS : Quantity := mkQuantity (139483699 / 1000000) GHz.
Definition rest_value_SiO : Quantity := mkQuantity (217104984 / 1000000) GHz.

(** A FITS header: keyword cards.  Header objects are mutable and live
    on the heap of the [World]. *)
Inductive card : Type :=
  | CFloat (r : R)
  | CInt (z : Z)
  | CStr (s : string).

Definition Header : Type := gmap string card.

(** [astropy.convolution.Gaussian1DKernel(stddev=...)], as the value the
    notebook hands to [spectral_smooth].  The constructor of the
    library takes the standard deviation in pixels; what it does with a
    [NaN] is not modelled. *)
Inductive Kernel : Type :=
  | Gaussian1DKernel (stddev : pyfloat).

(** [spectral_smoothing_kernel] of cell 32. *)
Definition spectral_smoothing_kernel (fwhm : pyfloat) : Kernel :=
  Gaussian1DKernel (kernel_stddev fwhm).

(** The FWHM in km/s of a kernel on a cube whose channels are
    [channel_width] km/s apart.  The kernel's [stddev] is a number of
    pixels (the comment of cell 32: we want the kernel in pixel units),
    and [spectral_smooth] convolves along the spectral axis, whose
    pixels are the channels; a FWHM is [fwhm_to_sigma] standard
    deviations. *)
Definition kernel_fwhm_km_per_s (k : Kernel) (channel_width : R) : pyfloat :=
  match k with
  | Gaussian1DKernel (Finite stddev) =>
      Finite (stddev * fwhm_to_sigma * Rabs channel_width)
  | Gaussian1DKernel NaN => NaN
  end.

(** ** Double precision *)

(** The magnitudes whose square neither overflows nor underflows in
    double precision: the squares lie between 1e-300 and 1e300, inside
    the range of normal doubles. *)
Definition square_in_double_range (x : R) : Prop :=
  / 10 ^ 150 <= Rabs x <= 10 ^ 150.

(** Cell 31 on IEEE doubles.  numpy computes the power 2 of a float as
    the product [x * x] and its power 0.5 as the square root; a general
    power function gives the same values where they matter below:
    infinity for a square that overflows, 0 for one that underflows,
    [NaN] for the root of a [NaN]. *)
Module Double.
Import PrimFloat.

Definition fwhm_gaussian (velocity_res_1 velocity_res_2 : float) : float :=
  sqrt (velocity_res_1 * velocity_res_1 - velocity_res_2 * velocity_res_2)%float.

(** The precondition as it is worded: the width is not [NaN] exactly
    when the first channel width is at least the second in magnitude. *)
Definition real_iff_as_stated (velocity_res_1 velocity_res_2 : float) : Prop :=
  is_nan (fwhm_gaussian velocity_res_1 velocity_res_2) = false <->
  leb (abs velocity_res_2) (abs velocity_res_1) = true.

(** Channel widths of [2^600] and [2^599] km/s, whose squares overflow,
    and of [2^-600] and [2^-599] km/s, whose squares underflow. *)
Definition wide_1 : float := 0x1p+600%float.
Definition wide_2 : float := 0x1p+599%float.
Definition narrow_1 : float := 0x1p-600%float.
Definition narrow_2 : float := 0x1p-599%float.
End Double.

(** ** The cube library

    The methods of a cube that the notebook calls, and the properties it
    reads.  [SpectralCube.read(f)] gives the in-memory class and
    [SpectralCube.read(f, use_dask=True)] the dask class; both have the
    same methods, so each is an instance.  [header] is the content of
    the header the [.header] accessor builds; [filled_data] and
    [celestial_grid] are the data values and the spatial axes. *)
Class SpectralCubeAPI (Beam Data SkyGrid Cube : Type) : Type := {
  read : string -> Cube;
  with_spectral_unit : Cube -> unit_ -> string -> Quantity -> Cube;
  spectral_axis : Cube -> list R;
  spectral_slab : Cube -> R -> R -> Cube;
  spectral_smooth : Cube -> Kernel -> Cube;
  spectral_interpolate : Cube -> list R -> bool -> Cube;
  beam : Cube -> Beam;
  convolve_to : Cube -> Beam -> Cube;
  header : Cube -> Header;
  reproject : Cube -> Header -> Cube;
  filled_data : Cube -> Data;
  celestial_grid : Cube -> SkyGrid
}.

(** The transforming methods, as data: one constructor per method, with
    its arguments. *)
Inductive step (Beam : Type) : Type :=
  | WithSpectralUnit (u : unit_) (velocity_convention : string) (rest : Quantity)
  | SpectralSlab (lo hi : R)
  | SpectralSmooth (k : Kernel)
  | SpectralInterpolate (grid : list R) (suppress_smooth_warning : bool)
  | ConvolveTo (b : Beam)
  | Reproject (h : Header).
Arguments WithSpectralUnit {Beam}.
Arguments SpectralSlab {Beam}.
Arguments SpectralSmooth {Beam}.
Arguments SpectralInterpolate {Beam}.
Arguments ConvolveTo {Beam}.
Arguments Reproject {Beam}.

Definition apply_step {Beam Data SkyGrid Cube : Type}
    `{!SpectralCubeAPI Beam Data SkyGrid Cube} (c : Cube) (s : step Beam) : Cube :=
  match s with
  | WithSpectralUnit u conv rest => with_spectral_unit c u conv rest
  | SpectralSlab lo hi => spectral_slab c lo hi
  | SpectralSmooth k => spectral_smooth c k
  | SpectralInterpolate grid sup => spectral_interpolate c grid sup
  | ConvolveTo b => convolve_to c b
  | Reproject h => reproject c h
  end.

(** Applying a list of steps, first to last. *)
Definition run_steps {Beam Data SkyGrid Cube : Type}
    `{!SpectralCubeAPI Beam Data SkyGrid Cube} (l : list (step Beam)) (c : Cube) : Cube :=
  fold_left apply_step l c.


(** The sequence the documentation announces for the second cube: the
    spectral steps (velocity conversion, slab with a buffer of one
    channel [velocity_res_2] below, Gaussian smoothing, interpolation
    onto the first cube's axis), then the spatial steps (convolution to
    the common beam, reprojection onto the target header). *)
Definition spectral_steps {Beam : Type} (lo hi velocity_res_2 : R)
    (kernel : Kernel) (spectral_axis_1 : list R) : list (step Beam) :=
  [ WithSpectralUnit km_per_s "radio" (mkQuantity (217104984 / 1000000) GHz);
    SpectralSlab (lo - velocity_res_2) hi;
    SpectralSmooth kernel;
    SpectralInterpolate spectral_axis_1 true ].

Definition spatial_steps {Beam : Type} (common_beam : Beam) (target : Header) :
    list (step Beam) :=
  [ ConvolveTo common_beam; Reproject target ].

(** ** What the notebook relies on in the external libraries

    The libraries are not part of the repository.  What their
    documentation and the notebook's text say about the methods is
    stated here, as properties of an instance of the interface. *)

(** Modelled from the spec: [with_spectral_unit] is a method of the
    external spectral-cube library.  It converts the spectral axis; the
    data values of the cube are kept. *)
Definition with_spectral_unit_keeps_data {Beam Data SkyGrid Cube : Type}
    (api : SpectralCubeAPI Beam Data SkyGrid Cube) : Prop :=
  forall (c : Cube) u conv rest,
    filled_data (with_spectral_unit c u conv rest) = filled_data c.

(** Modelled from the spec: [spectral_interpolate] is a method of the
    external spectral-cube library.  Interpolating onto the spectral
    axis of a cube gives a cube with that spectral axis, and the
    spatial axes of the interpolated cube are kept. *)
Definition spectral_interpolate_onto_axis {Beam Data SkyGrid Cube : Type}
    (api : SpectralCubeAPI Beam Data SkyGrid Cube) : Prop :=
  (forall (c c1 : Cube) sup,
     spectral_axis (spectral_interpolate c (spectral_axis c1) sup) =
     spectral_axis c1) /\
  (forall (c : Cube) grid sup,
     celestial_grid (spectral_interpolate c grid sup) = celestial_grid c).

(** Modelled from the spec: [radio_beam.commonbeam.common_2beams] is a
    function of the external radio-beam library.  The glossary: the
    common beam is the smallest beam that is larger than or equal to
    the input beams.  [beam_le a b] says that beam [b] is larger than
    or equal to beam [a]; beams are compared in size by their [area],
    and a beam that is larger than or equal to [a] without a larger
    area is [a]. *)
Definition smallest_common_beam {Beam : Type}
    (beam_le : Beam -> Beam -> Prop) (area : Beam -> R)
    (common_2beams : list Beam -> Beam) : Prop :=
  (forall a, beam_le a a) /\
  (forall a c, beam_le a c -> area c <= area a -> c = a) /\
  (forall a b,
     beam_le a (common_2beams [a; b]) /\ beam_le b (common_2beams [a; b])) /\
  (forall a b c,
     beam_le a c -> beam_le b c -> area (common_2beams [a; b]) <= area c).

(** ** The process state *)

Inductive net_event : Type :=
  | Fetch (url : string)
  | SplatalogueQuery (chemical_name : string).

Record World : Type := mkWorld {
  dl_cache : gmap string string;   (* astropy download cache: URL to local file *)
  net_log : list net_event;        (* network accesses, oldest first *)
  heap : gmap positive Header      (* header objects *)
}.

(** Stateful code that may raise. *)
Definition M (A : Type) : Type := World -> result (A * World).

#[global] Instance M_ret : MRet M := fun A a w => Ok (a, w).
#[global] Instance M_bind : MBind M := fun A B f m w =>
  match m w with
  | Ok (a, w') => f a w'
  | Raise e => Raise e
  end.

Definition lift {A : Type} (r : result A) : M A := fun w =>
  match r with
  | Ok a => Ok (a, w)
  | Raise e => Raise e
  end.

Definition is_fetch (e : net_event) : bool :=
  match e with Fetch _ => true | SplatalogueQuery _ => false end.

(** The files downloaded so far. *)
Definition fetched (w : World) : list net_event := filter is_fetch (net_log w).

(** Modelled from the spec: [astropy.utils.data.download_file(url,
    cache=...)] is a function of the external astropy library.  With
    [cache=True] a URL already in the cache gives the cached file and
    no network access; otherwise the file is fetched, and with
    [cache=True] it is entered in the cache.  [local_path] is where the
    library stores the file fetched from a URL. *)
Definition download_file (local_path : string -> string)
    (url : string) (cache : bool) : M string := fun w =>
  match (if cache then dl_cache w !! url else None) with
  | Some f => Ok (f, w)
  | None =>
      let f := local_path url in
      Ok (f, mkWorld (if cache then <[url := f]> (dl_cache w) else dl_cache w)
                     (net_log w ++ [Fetch url])
                     (heap w))
  end.

(** Modelled from the spec: [cube.find_lines(chemical_name=...)] is a
    method of the external spectral-cube library; it queries
    Splatalogue.  The notebook only displays the table it returns. *)
Definition find_lines {Cube : Type} (c : Cube) (chemical_name : string) : M () :=
  fun w => Ok ((), mkWorld (dl_cache w)
                           (net_log w ++ [SplatalogueQuery chemical_name])
                           (heap w)).

(** Modelled from the spec: [cube.header] is a property of the external
    spectral-cube library.  The accessor builds a new header object on
    each access (the notebook: "we make a copy of the target
    (cube1vel) header"). *)
Definition new_header (h : Header) : M positive := fun w =>
  let l := fresh (dom (heap w)) in
  Ok (l, mkWorld (dl_cache w) (net_log w) (<[l := h]> (heap w))).

(** [hdr[key]]: raises [KeyError] for a missing keyword. *)
Definition header_getitem (l : positive) (key : string) : M card := fun w =>
  match heap w !! l ≫= (.!! key) with
  | Some v => Ok (v, w)
  | None => Raise KeyError
  end.

(** [hdr[key] = v]: updates the header object in place. *)
Definition header_setitem (l : positive) (key : string) (v : card) : M () :=
  fun w => Ok ((), mkWorld (dl_cache w) (net_log w)
                           (alter (<[key := v]>) l (heap w))).

(** The content of a header object, when it is passed to the library. *)
Definition header_content (l : positive) : M Header := fun w =>
  Ok (default ∅ (heap w !! l), w).

Definition url_1 : string :=
  "https://almascience.eso.org/dataPortal/member.uid___A001_X1465_X3a33.BrickMaser_sci.spw71.cube.I.manual.image.pbcor.fits".
Definition url_2 : string :=
  "https://almascience.eso.org/dataPortal/member.uid___A001_X87d_X141.a_sma1_sci.spw27.cube.I.pbcor.fits".

(** The variables of the notebook when it has run. *)
Module ns.
Record t (Beam SpectralCube DaskSpectralCube : Type) : Type := mk {
  filename_1 : string;
  filename_2 : string;
  cube1 : SpectralCube;
  cube2 : SpectralCube;
  cube1vel : SpectralCube;
  cube2vel : SpectralCube;
  velocity_res_1 : R;
  velocity_res_2 : R;
  cube2vel_cutout : SpectralCube;
  fwhm_gaussian : pyfloat;
  fwhm_to_sigma : R;
  spectral_smoothing_kernel : Kernel;
  cube2vel_smooth : SpectralCube;
  cube2vel_spectralresample : SpectralCube;
  common_beam : Beam;
  cube2vel_spatialspectralsmooth : SpectralCube;
  tgthdr : positive;
  cube2vel_reproj : SpectralCube;
  cube2dask : DaskSpectralCube;
  cube2daskvel : DaskSpectralCube;
  cube2daskvel_cutout : DaskSpectralCube;
  cube2daskvel_smooth : DaskSpectralCube;
  cube2daskvel_spectralresample : DaskSpectralCube;
  cube2daskvel_spatialspectralsmooth : DaskSpectralCube;
  cube2daskvel_reproj : DaskSpectralCube
}.
Arguments mk {Beam SpectralCube DaskSpectralCube}.
Arguments filename_1 {Beam SpectralCube DaskSpectralCube}.
Arguments filename_2 {Beam SpectralCube DaskSpectralCube}.
Arguments cube1 {Beam SpectralCube DaskSpectralCube}.
Arguments cube2 {Beam SpectralCube DaskSpectralCube}.
Arguments cube1vel {Beam SpectralCube DaskSpectralCube}.
Arguments cube2vel {Beam SpectralCube DaskSpectralCube}.
Arguments velocity_res_1 {Beam SpectralCube DaskSpectralCube}.
Arguments velocity_res_2 {Beam SpectralCube DaskSpectralCube}.
Arguments cube2vel_cutout {Beam SpectralCube DaskSpectralCube}.
Arguments fwhm_gaussian {Beam SpectralCube DaskSpectralCube}.
Arguments fwhm_to_sigma {Beam SpectralCube DaskSpectralCube}.
Arguments spectral_smoothing_kernel {Beam SpectralCube DaskSpectralCube}.
Arguments cube2vel_smooth {Beam SpectralCube DaskSpectralCube}.
Arguments cube2vel_spectralresample {Beam SpectralCube DaskSpectralCube}.
Arguments common_beam {Beam SpectralCube DaskSpectralCube}.
Arguments cube2vel_spatialspectralsmooth {Beam SpectralCube DaskSpectralCube}.
Arguments tgthdr {Beam SpectralCube DaskSpectralCube}.
Arguments cube2vel_reproj {Beam SpectralCube DaskSpectralCube}.
Arguments cube2dask {Beam SpectralCube DaskSpectralCube}.
Arguments cube2daskvel {Beam SpectralCube DaskSpectralCube}.
Arguments cube2daskvel_cutout {Beam SpectralCube DaskSpectralCube}.
Arguments cube2daskvel_smooth {Beam SpectralCube DaskSpectralCube}.
Arguments cube2daskvel_spectralresample {Beam SpectralCube DaskSpectralCube}.
Arguments cube2daskvel_spatialspectralsmooth {Beam SpectralCube DaskSpectralCube}.
Arguments cube2daskvel_reproj {Beam SpectralCube DaskSpectralCube}.
End ns.

(** ** The notebook *)

Section Notebook.
Context {Beam Data SkyGrid SpectralCube DaskSpectralCube : Type}.
Context {memory : SpectralCubeAPI Beam Data SkyGrid SpectralCube}.
Context {dask : SpectralCubeAPI Beam Data SkyGrid DaskSpectralCube}.
(** [radio_beam.commonbeam.common_2beams(radio_beam.Beams(beams=[...]))] *)
Variable common_2beams : list Beam -> Beam.
Variable local_path : string -> string.

(** The code cells, in order.  Cells that only display a value are
    left out: a variable at the end of a cell, the [quicklook] plots,
    the peak intensity map [mx] they show and the two spectra at pixel
    (125, 125) of cell 51.  A cell of the model raises what the
    notebook's own expressions raise ([np.diff(...)[0]], [.min()],
    [.max()], the header lookup); what the library calls may raise
    inside is not modelled. *)
Definition run_notebook : M (ns.t Beam SpectralCube DaskSpectralCube) :=
  (* Step 1, cells 5 and 6 *)
  filename_1 ← download_file local_path url_1 true;
  filename_2 ← download_file local_path url_2 true;
  (* Step 2, cells 9 to 14 *)
  let cube1 : SpectralCube := read filename_1 in
  let cube2 : SpectralCube := read filename_2 in
  _ ← find_lines cube1 " H2CS ";
  _ ← find_lines cube2 "SiO";
  (* Step 3, cells 17 and 18 *)
  let cube1vel := with_spectral_unit cube1 km_per_s "radio" rest_value_H2CS in
  let cube2vel := with_spectral_unit cube2 km_per_s "radio" rest_value_SiO in
  (* Step 4, cell 25 *)
  velocity_res_1 ← lift (velocity_res (spectral_axis cube1vel));
  velocity_res_2 ← lift (velocity_res (spectral_axis cube2vel));
  (* cell 27 *)
  lo ← lift (np_min (spectral_axis cube1vel));
  hi ← lift (np_max (spectral_axis cube1vel));
  let cube2vel_cutout := spectral_slab cube2vel lo hi in
  (* cell 29: the same variable, bound again *)
  lo ← lift (np_min (spectral_axis cube1vel));
  hi ← lift (np_max (spectral_axis cube1vel));
  let cube2vel_cutout := spectral_slab cube2vel (lo - velocity_res_2) hi in
  (* cells 31 and 32 *)
  let fwhm_gaussian := fwhm_gaussian velocity_res_1 velocity_res_2 in
  let fwhm_to_sigma := fwhm_to_sigma in
  let spectral_smoothing_kernel := spectral_smoothing_kernel fwhm_gaussian in
  (* cells 34 and 36 *)
  let cube2vel_smooth := spectral_smooth cube2vel_cutout spectral_smoothing_kernel in
  let cube2vel_spectralresample :=
    spectral_interpolate cube2vel_smooth (spectral_axis cube1vel) true in
  (* Step 5, cells 43 and 45 *)
  let common_beam := common_2beams [beam cube1vel; beam cube2vel] in
  let cube2vel_spatialspectralsmooth :=
    convolve_to cube2vel_spectralresample common_beam in
  (* Step 6, cell 47 *)
  tgthdr ← new_header (header cube1vel);
  hdr2 ← new_header (header cube2vel_spatialspectralsmooth);
  restfrq ← header_getitem hdr2 "RESTFRQ";
  _ ← header_setitem tgthdr "RESTFRQ" restfrq;
  target ← header_content tgthdr;
  let cube2vel_reproj := reproject cube2vel_spatialspectralsmooth target in
  (* Dask, cell 55 *)
  let cube2dask : DaskSpectralCube := read filename_2 in
  let cube2daskvel := with_spectral_unit cube2dask km_per_s "radio" rest_value_SiO in
  lo ← lift (np_min (spectral_axis cube1vel));
  hi ← lift (np_max (spectral_axis cube1vel));
  let cube2daskvel_cutout :=
    spectral_slab cube2daskvel (lo - velocity_res_2) hi in
  let cube2daskvel_smooth :=
    spectral_smooth cube2daskvel_cutout spectral_smoothing_kernel in
  let cube2daskvel_spectralresample :=
    spectral_interpolate cube2daskvel_smooth (spectral_axis cube1vel) true in
  let cube2daskvel_spatialspectralsmooth :=
    convolve_to cube2daskvel_spectralresample common_beam in
  target ← header_content tgthdr;
  let cube2daskvel_reproj :=
    reproject cube2daskvel_spatialspectralsmooth target in
  mret (ns.mk filename_1 filename_2 cube1 cube2 cube1vel cube2vel
          velocity_res_1 velocity_res_2 cube2vel_cutout
          fwhm_gaussian fwhm_to_sigma spectral_smoothing_kernel
          cube2vel_smooth cube2vel_spectralresample
          common_beam cube2vel_spatialspectralsmooth
          tgthdr cube2vel_reproj
          cube2dask cube2daskvel cube2daskvel_cutout cube2daskvel_smooth
          cube2daskvel_spectralresample cube2daskvel_spatialspectralsmooth
          cube2daskvel_reproj).

End Notebook.

(** ** A small library instance

    A reference instance of the interface, on which the notebook runs
    to completion: a cube records the file it was read from, its
    spectral axis, beam size, header, data, sky grid and the names of
    the methods applied to it.  A dask cube is a suspended in-memory
    cube.  Beams are circular, given by their size. *)
Module Recording.

Record cube : Type := mk {
  file : string;
  axis : list R;
  bm : nat;
  hdr : Header;
  data : list R;
  grid : string;
  history : list string
}.

Definition path (url : string) : string := "/cache/" +:+ url.

Definition read_file (f : string) : cube :=
  if String.eqb f (path url_1)
  then mk f [0; 5; 10] 3 ∅ [1; 2; 3] "sky1" []
  else mk f [0; 3; 6; 9; 12] 2 ∅ [4; 5; 6; 7; 8] "sky2" [].

Definition log (name : string) (c : cube) : list string := history c ++ [name].

#[global] Instance memory : SpectralCubeAPI nat (list R) string cube := {|
  read := read_file;
  with_spectral_unit c _ _ rest :=
    mk (file c) (axis c) (bm c)
       (<["RESTFRQ" := CFloat (value rest * 1000000000)]> (hdr c))
       (data c) (grid c) (log "with_spectral_unit" c);
  spectral_axis := axis;
  spectral_slab c _ _ :=
    mk (file c) (axis c) (bm c) (hdr c) (data c) (grid c) (log "spectral_slab" c);
  spectral_smooth c _ :=
    mk (file c) (axis c) (bm c) (hdr c) (data c) (grid c) (log "spectral_smooth" c);
  spectral_interpolate c g _ :=
    mk (file c) g (bm c) (hdr c) (data c) (grid c) (log "spectral_interpolate" c);
  beam := bm;
  convolve_to c b :=
    mk (file c) (axis c) b (hdr c) (data c) (grid c) (log "convolve_to" c);
  header := hdr;
  reproject c h :=
    mk (file c) (axis c) (bm c) h (data c) "target" (log "reproject" c);
  filled_data := data;
  celestial_grid := grid
|}.

Definition lazy_cube : Type := () -> cube.


#[global] Instance dask : SpectralCubeAPI nat (list R) string lazy_cube := {|
  read f := fun _ => read_file f;
  with_spectral_unit d u conv rest := fun _ => with_spectral_unit (d ()) u conv rest;
  spectral_axis d := spectral_axis (d ());
  spectral_slab d lo hi := fun _ => spectral_slab (d ()) lo hi;
  spectral_smooth d k := fun _ => spectral_smooth (d ()) k;
  spectral_interpolate d g s := fun _ => spectral_interpolate (d ()) g s;
  beam d := beam (d ());
  convolve_to d b := fun _ => convolve_to (d ()) b;
  header d := header (d ());
  reproject d h := fun _ => reproject (d ()) h;
  filled_data d := filled_data (d ());
  celestial_grid d := celestial_grid (d ())
|}.

Definition common_2beams (beams : list nat) : nat := foldr Nat.max 0%nat beams.

Definition area (b : nat) : R := INR b.

(** A fresh process: empty cache, no header objects. *)
Definition w0 : World := mkWorld ∅ [] ∅.

Definition run : result (ns.t nat cube lazy_cube * World) :=
  run_notebook common_2beams path w0.

End Recording.

(** ** Ordered axes *)

(** [chain rel a]: every entry of [a] is [rel]-related to the next one. *)
Fixpoint chain (rel : R -> R -> Prop) (a : list R) : Prop :=
  match a with
  | x :: (y :: _) as t => rel x y /\ chain rel t
  | _ => True
  end.

(** ** The values of a run, by the world it starts in *)

(** The file that [download_file(url, cache=True)] returns in [w]: the
    cached file of [url], or else the file a fetch stores. *)
Definition cached_file (local_path : string -> string) (w : World)
    (url : string) : string :=
  default (local_path url) (dl_cache w !! url).

Section NotebookValues.
Context {Beam Data SkyGrid SpectralCube : Type}.
Context {memory : SpectralCubeAPI Beam Data SkyGrid SpectralCube}.
Variable common_2beams : list Beam -> Beam.
Variable local_path : string -> string.

(** [cube1vel] and [cube2vel] (cells 17 and 18) of a run that starts in
    [w0]. *)
Definition cube1vel_in (w0 : World) : SpectralCube :=
  with_spectral_unit (read (cached_file local_path w0 url_1))
    km_per_s "radio" rest_value_H2CS.

Definition cube2vel_in (w0 : World) : SpectralCube :=
  with_spectral_unit (read (cached_file local_path w0 url_2))
    km_per_s "radio" rest_value_SiO.

(** [cube2vel_spatialspectralsmooth] (cell 45) of a run that starts in
    [w0], when cell 25 gave the channel widths [v1] and [v2] and cell
    29 the minimum [lo] and maximum [hi] of [cube1vel]'s axis. *)
Definition cube2vel_spatialspectralsmooth_in (w0 : World)
    (v1 v2 lo hi : R) : SpectralCube :=
  convolve_to
    (spectral_interpolate
       (spectral_smooth
          (spectral_slab (cube2vel_in w0) (lo - v2) hi)
          (spectral_smoothing_kernel (fwhm_gaussian v1 v2)))
       (spectral_axis (cube1vel_in w0)) true)
    (common_2beams [beam (cube1vel_in w0); beam (cube2vel_in w0)]).
End NotebookValues.

(** ** An instance with one axis and one header

    Every cube of this instance has the spectral axis [ax] and the
    header [h]: the notebook on cubes with too few channels. *)
Module Bare.
Definition api (ax : list R) (h : Header) : SpectralCubeAPI () () () () := {|
  read _ := ();
  with_spectral_unit _ _ _ _ := ();
  spectral_axis _ := ax;
  spectral_slab _ _ _ := ();
  spectral_smooth _ _ := ();
  spectral_interpolate _ _ _ := ();
  beam _ := ();
  convolve_to _ _ := ();
  header _ := h;
  reproject _ _ := ();
  filled_data _ := ();
  celestial_grid _ := ()
|}.

Definition run (ax : list R) (h : Header) : result (ns.t () () () * World) :=
  run_notebook (memory := api ax h) (dask := api ax h)
    (fun _ => ()) (fun url => url) (mkWorld ∅ [] ∅).
End Bare.

(** ** An instance with decreasing velocity axes

    The velocity axes of this instance decrease, as the radio velocity
    of a frequency axis that increases does.  A cube records the bounds
    of the slab it was cut to.  The two backends share the cube type
    and differ in one method: the in-memory [spectral_interpolate]
    gives every channel of the new axis a value, the dask one blanks
    the first channel (cell 28: interpolation may blank out an edge
    pixel). *)
Module Descending.
Record cube : Type := mk {
  axis : list R;
  slab : option (R * R);
  data : list pyfloat;
  hdr : Header
}.

Definition read_file (f : string) : cube :=
  if String.eqb f (Recording.path url_1)
  then mk [10; 5; 0] None [Finite 1; Finite 2; Finite 3] ∅
  else mk [9; 6; 3; 0] None [Finite 4; Finite 5; Finite 6; Finite 7] ∅.

Definition interpolated (blank_edge : bool) (g : list R) : list pyfloat :=
  match g with
  | [] => []
  | _ :: t => (if blank_edge then NaN else Finite 0) :: map (fun _ => Finite 0) t
  end.

Definition api (blank_edge : bool) : SpectralCubeAPI () (list pyfloat) () cube := {|
  read := read_file;
  with_spectral_unit c _ _ rest :=
    mk (axis c) (slab c) (data c)
       (<["RESTFRQ" := CFloat (value rest * 1000000000)]> (hdr c));
  spectral_axis := axis;
  spectral_slab c lo hi := mk (axis c) (Some (lo, hi)) (data c) (hdr c);
  spectral_smooth c _ := c;
  spectral_interpolate c g _ :=
    mk g (slab c) (interpolated blank_edge g) (hdr c);
  beam _ := ();
  convolve_to c _ := c;
  header := hdr;
  reproject c h := mk (axis c) (slab c) (data c) h;
  filled_data := data;
  celestial_grid _ := ()
|}.

Definition memory : SpectralCubeAPI () (list pyfloat) () cube := api false.
Definition dask : SpectralCubeAPI () (list pyfloat) () cube := api true.

Definition run : result (ns.t () cube cube * World) :=
  run_notebook (memory := memory) (dask := dask)
    (fun _ => ()) Recording.path Recording.w0.
End Descending.

(** ** The cutout as the documentation words it *)


(** ** Theorems *)

Lemma sq_le_iff_Rabs (a b : R) : b ^ 2 <= a ^ 2 <-> Rabs b <= Rabs a.
Proof.
  split; intros H.
  - apply Rsqr_le_abs_0. unfold Rsqr. lra.
  - apply Rsqr_le_abs_1 in H. unfold Rsqr in H. lra.
Qed.

Lemma fwhm_to_sigma_pos : 0 < fwhm_to_sigma.
Proof.
  unfold fwhm_to_sigma. apply sqrt_lt_R0.
  pose proof ln_lt_2. lra.
Qed.

Lemma np_diff_length (a : list R) : length (np_diff a) = Nat.pred (length a).
Proof.
  induction a as [|x [|y t] IH]; simpl in *; try reflexivity.
  rewrite IH. reflexivity.
Qed.

(** *** Channel widths and the smoothing kernel *)


Lemma velocity_res_ok_length (ax : list R) (v : R) :
  velocity_res ax = Ok v -> (2 <= length ax)%nat.
Proof.
  destruct ax as [|x [|y t]]; simpl; try discriminate.
  intros _. lia.
Qed.

(** C9: [np.diff(spectral_axis)[0]] needs a spectral axis of at least
    two entries.  With fewer, the index raises [IndexError]; with two or
    more, the difference array is not empty, index 0 is in bounds, and
    the result is the first channel spacing, whatever the later
    spacings are. *)
Theorem velocity_res_needs_two_entries (ax : list R) :
  ((length ax < 2)%nat -> velocity_res ax = Raise IndexError) /\
  ((2 <= length ax)%nat ->
     length (np_diff ax) = (length ax - 1)%nat /\
     (0 < length (np_diff ax))%nat /\
     exists x y t, ax = x :: y :: t /\ velocity_res ax = Ok (y - x)).
Proof.
  split.
  - destruct ax as [|x [|y t]]; simpl; intros H; try reflexivity. lia.
  - intros H. rewrite np_diff_length.
    destruct ax as [|x [|y t]]; simpl in *; try lia.
    repeat split; try lia.
    exists x, y, t. split; reflexivity.
Qed.

Lemma fwhm_gaussian_finite (v1 v2 : R) :
  Rabs v2 <= Rabs v1 ->
  fwhm_gaussian v1 v2 = Finite (sqrt (v1 ^ 2 - v2 ^ 2)).
Proof.
  intros H. apply sq_le_iff_Rabs in H.
  unfold fwhm_gaussian, pow_half.
  destruct (Rle_dec 0 (v1 ^ 2 - v2 ^ 2)) as [_|Hn]; [reflexivity | lra].
Qed.

Lemma fwhm_gaussian_nan (v1 v2 : R) :
  Rabs v1 < Rabs v2 -> fwhm_gaussian v1 v2 = NaN.
Proof.
  intros H. unfold fwhm_gaussian, pow_half.
  destruct (Rle_dec 0 (v1 ^ 2 - v2 ^ 2)) as [Hp|_]; [|reflexivity].
  assert (Rabs v2 <= Rabs v1) by (apply sq_le_iff_Rabs; lra). lra.
Qed.

Lemma one_le_pow_10 (n : nat) : 1 <= 10 ^ n.
Proof. apply pow_R1_Rle. lra. Qed.

Lemma square_in_double_range_intro (x : R) :
  1 <= Rabs x <= 10 -> square_in_double_range x.
Proof.
  intros [Hlo Hhi]. unfold square_in_double_range.
  pose proof (one_le_pow_10 150) as H150.
  pose proof (one_le_pow_10 149) as H149.
  split.
  - apply Rle_trans with 1; [|exact Hlo].
    rewrite <- Rinv_1. apply Rinv_le_contravar; lra.
  - apply Rle_trans with 10; [exact Hhi|].
    change (10 ^ 150) with (10 * 10 ^ 149). lra.
Qed.

(** C10, as amended: for channel widths whose squares neither overflow
    nor underflow in double precision, the kernel width is a real
    number exactly when the channel width of [cube1vel] is at least
    that of [cube2vel] in magnitude.  Then [fwhm_gaussian] is real and
    nonnegative and the [stddev] computed for [Gaussian1DKernel] is a
    real, nonnegative number; otherwise both are [NaN]. *)
Theorem fwhm_gaussian_real_iff (velocity_res_1 velocity_res_2 : R) :
  square_in_double_range velocity_res_1 ->
  square_in_double_range velocity_res_2 ->
  (is_real (fwhm_gaussian velocity_res_1 velocity_res_2) <->
     Rabs velocity_res_2 <= Rabs velocity_res_1) /\
  (Rabs velocity_res_2 <= Rabs velocity_res_1 ->
     exists w s,
       fwhm_gaussian velocity_res_1 velocity_res_2 = Finite w /\ 0 <= w /\
       kernel_stddev (fwhm_gaussian velocity_res_1 velocity_res_2) = Finite s /\
       s = w / fwhm_to_sigma /\ 0 <= s) /\
  (Rabs velocity_res_1 < Rabs velocity_res_2 ->
     fwhm_gaussian velocity_res_1 velocity_res_2 = NaN /\
     kernel_stddev (fwhm_gaussian velocity_res_1 velocity_res_2) = NaN).
Proof.
  intros _ _. split; [|split].
  - split.
    + intros Hreal. destruct (Rle_lt_dec (Rabs velocity_res_2) (Rabs velocity_res_1))
        as [Hle|Hlt]; [exact Hle|].
      rewrite (fwhm_gaussian_nan _ _ Hlt) in Hreal. destruct Hreal.
    + intros Hle. rewrite (fwhm_gaussian_finite _ _ Hle). exact I.
  - intros Hle. rewrite (fwhm_gaussian_finite _ _ Hle).
    exists (sqrt (velocity_res_1 ^ 2 - velocity_res_2 ^ 2)).
    exists (sqrt (velocity_res_1 ^ 2 - velocity_res_2 ^ 2) / fwhm_to_sigma).
    pose proof (sqrt_pos (velocity_res_1 ^ 2 - velocity_res_2 ^ 2)) as Hw.
    pose proof fwhm_to_sigma_pos as Hs.
    repeat split; try reflexivity; try exact Hw.
    apply Rmult_le_pos; [exact Hw|].
    left. apply Rinv_0_lt_compat. exact Hs.
  - intros Hlt. rewrite (fwhm_gaussian_nan _ _ Hlt). split; reflexivity.
Qed.

(** C10, as worded, fails on doubles.  With channel widths [2^600] and
    [2^599] km/s the first is the larger, yet both squares overflow to
    infinity and their difference, hence the width, is [NaN].  With
    channel widths [2^-600] and [2^-599] km/s the first is the smaller,
    yet both squares underflow to 0 and the width is the real number
    0. *)
Lemma real_iff_as_stated_fails :
  ~ Double.real_iff_as_stated Double.wide_1 Double.wide_2 /\
  ~ Double.real_iff_as_stated Double.narrow_1 Double.narrow_2.
Proof.
  split; intros [Honly Hif].
  - assert (Hle : PrimFloat.leb (PrimFloat.abs Double.wide_2)
                    (PrimFloat.abs Double.wide_1) = true)
      by (vm_compute; reflexivity).
    apply Hif in Hle. vm_compute in Hle. discriminate.
  - assert (Hreal : PrimFloat.is_nan
                      (Double.fwhm_gaussian Double.narrow_1 Double.narrow_2) = false)
      by (vm_compute; reflexivity).
    apply Honly in Hreal. vm_compute in Hreal. discriminate.
Qed.

(** C3: with channel widths of 5 and 3 km/s the width that cell 31
    computes is 4 km/s, and cell 32 hands that number, divided by
    [fwhm_to_sigma], to [Gaussian1DKernel] as a standard deviation in
    pixels.  On [cube2vel], whose pixels are 3 km/s wide, the kernel is
    about 12 km/s wide, and a Gaussian of width 3 km/s convolved with
    it is more than 11 km/s wide: not 5 km/s. *)
Theorem kernel_stddev_taken_as_pixels :
  fwhm_gaussian 5 3 = Finite 4 /\
  spectral_smoothing_kernel (fwhm_gaussian 5 3) =
    Gaussian1DKernel (Finite (4 / fwhm_to_sigma)) /\
  exists w,
    kernel_fwhm_km_per_s (spectral_smoothing_kernel (fwhm_gaussian 5 3)) 3 =
      Finite w /\
    11 < w < 13 /\
    11 < convolved_width 3 w /\
    convolved_width 3 w <> 5.
Proof.
  assert (Hf : fwhm_gaussian 5 3 = Finite 4).
  { rewrite fwhm_gaussian_finite by (rewrite !Rabs_pos_eq by lra; lra).
    f_equal. replace (5 ^ 2 - 3 ^ 2) with (4 * 4) by lra.
    apply sqrt_square. lra. }
  pose proof fwhm_to_sigma_pos as Hs.
  split; [exact Hf|]. rewrite Hf. split; [reflexivity|].
  exists (4 / fwhm_to_sigma * fwhm_to_sigma * Rabs 3).
  split; [reflexivity|].
  assert (Hw : 4 / fwhm_to_sigma * fwhm_to_sigma * Rabs 3 = 12).
  { rewrite Rabs_pos_eq by lra. field. lra. }
  rewrite Hw.
  assert (H11 : sqrt (11 * 11) = 11) by (apply sqrt_square; lra).
  assert (Hc : 11 < convolved_width 3 12).
  { unfold convolved_width. rewrite <- H11 at 1.
    apply sqrt_lt_1_alt. lra. }
  repeat split; try lra.
Qed.

(** *** Running monadic code *)

Lemma bind_inv {A B : Type} (m : M A) (f : A -> M B) (w : World) (r : B * World) :
  (m ≫= f) w = Ok r -> exists a w1, m w = Ok (a, w1) /\ f a w1 = Ok r.
Proof.
  unfold mbind, M_bind. destruct (m w) as [[a w1]|e]; [|discriminate].
  intros H. exists a, w1. split; [reflexivity | exact H].
Qed.

Lemma lift_inv {A : Type} (r : result A) (w w1 : World) (a : A) :
  lift r w = Ok (a, w1) -> r = Ok a /\ w1 = w.
Proof.
  unfold lift. destruct r; [|discriminate].
  intros H. injection H as -> ->. split; reflexivity.
Qed.

Lemma find_lines_inv {Cube : Type} (c : Cube) (name : string) (w w1 : World) (u : ()) :
  find_lines c name w = Ok (u, w1) ->
  w1 = mkWorld (dl_cache w) (net_log w ++ [SplatalogueQuery name]) (heap w).
Proof. unfold find_lines. intros H. injection H as _ <-. reflexivity. Qed.

Lemma new_header_inv (h : Header) (w w1 : World) (l : positive) :
  new_header h w = Ok (l, w1) ->
  l = fresh (dom (heap w)) /\
  w1 = mkWorld (dl_cache w) (net_log w) (<[l := h]> (heap w)).
Proof. unfold new_header. intros H. injection H as <- <-. split; reflexivity. Qed.

Lemma header_getitem_inv (l : positive) (key : string) (w w1 : World) (v : card) :
  header_getitem l key w = Ok (v, w1) ->
  heap w !! l ≫= (.!! key) = Some v /\ w1 = w.
Proof.
  unfold header_getitem. destruct (heap w !! l ≫= (.!! key)); [|discriminate].
  intros H. injection H as -> ->. split; reflexivity.
Qed.

Lemma header_setitem_inv (l : positive) (key : string) (v : card) (w w1 : World) (u : ()) :
  header_setitem l key v w = Ok (u, w1) ->
  w1 = mkWorld (dl_cache w) (net_log w) (alter (<[key := v]>) l (heap w)).
Proof. unfold header_setitem. intros H. injection H as _ <-. reflexivity. Qed.

Lemma header_content_inv (l : positive) (w w1 : World) (h : Header) :
  header_content l w = Ok (h, w1) -> h = default ∅ (heap w !! l) /\ w1 = w.
Proof. unfold header_content. intros H. injection H as <- <-. split; reflexivity. Qed.

Lemma mret_inv {A : Type} (a b : A) (w w1 : World) :
  (mret a : M A) w = Ok (b, w1) -> b = a /\ w1 = w.
Proof. unfold mret, M_ret. intros H. injection H as <- <-. split; reflexivity. Qed.

(** Splits a run [H : (c1 ≫= ... ≫= mret v) w = Ok r] into the runs of
    its commands, in order. *)
Ltac run_inv H :=
  repeat (apply bind_inv in H;
          let a := fresh "a" in
          let w := fresh "w" in
          let Hc := fresh "Hc" in
          destruct H as (a & w & Hc & H);
          cbv beta zeta in H;
          first
            [ apply lift_inv in Hc; destruct Hc as [Hc ->]
            | apply find_lines_inv in Hc; subst w
            | apply new_header_inv in Hc; destruct Hc as [Hc ->]
            | apply header_getitem_inv in Hc; destruct Hc as [Hc ->]
            | apply header_setitem_inv in Hc; subst w
            | apply header_content_inv in Hc; destruct Hc as [-> ->]
            | idtac ];
          cbn [dl_cache net_log heap] in * );
  apply mret_inv in H; destruct H as [-> ->];
  cbn [dl_cache net_log heap] in *.

(** Identifies the results of evaluating one expression several times. *)
Ltac same_results :=
  repeat match goal with
  | H1 : ?x = Ok ?a, H2 : ?x = Ok ?b |- _ =>
      is_var b; assert (b = a) as -> by congruence; clear H2
  end.

Section NotebookFacts.
Context {Beam Data SkyGrid SpectralCube DaskSpectralCube : Type}.
Context {memory : SpectralCubeAPI Beam Data SkyGrid SpectralCube}.
Context {dask : SpectralCubeAPI Beam Data SkyGrid DaskSpectralCube}.
Variable common_2beams : list Beam -> Beam.
Variable local_path : string -> string.

#[local] Abbreviation notebook :=
  (run_notebook (memory := memory) (dask := dask) common_2beams local_path).
#[local] Abbreviation namespace := (ns.t Beam SpectralCube DaskSpectralCube).

(** *** Step 1: the downloads *)

Lemma url_1_neq_url_2 : url_1 <> url_2.
Proof. discriminate. Qed.

Lemma download_file_inv (url f : string) (w w1 : World) :
  download_file local_path url true w = Ok (f, w1) ->
  heap w1 = heap w /\
  dl_cache w1 !! url = Some f /\
  (forall u, u <> url -> dl_cache w1 !! u = dl_cache w !! u) /\
  match dl_cache w !! url with
  | Some f0 => f = f0 /\ w1 = w
  | None => f = local_path url /\ net_log w1 = net_log w ++ [Fetch url]
  end.
Proof.
  unfold download_file.
  destruct (dl_cache w !! url) as [f0|] eqn:Hc; intros H; injection H as <- <-.
  - repeat split; try assumption; reflexivity.
  - simpl. repeat split.
    + apply lookup_insert_eq.
    + intros u Hu. apply lookup_insert_ne. congruence.
Qed.

Lemma fetched_queries (c : gmap string string) (l : list net_event)
    (h : gmap positive Header) (q1 q2 : string) :
  fetched (mkWorld c ((l ++ [SplatalogueQuery q1]) ++ [SplatalogueQuery q2]) h) =
  filter is_fetch l.
Proof.
  unfold fetched. simpl. rewrite !filter_app. simpl.
  rewrite !app_nil_r. reflexivity.
Qed.

(** What one run adds to the download cache and to the fetched files. *)
Lemma notebook_downloads (w0 w1 : World) (ns : namespace) :
  notebook w0 = Ok (ns, w1) ->
  dl_cache w1 !! url_1 = Some (ns.filename_1 ns) /\
  dl_cache w1 !! url_2 = Some (ns.filename_2 ns) /\
  fetched w1 =
    fetched w0
    ++ match dl_cache w0 !! url_1 with Some _ => [] | None => [Fetch url_1] end
    ++ match dl_cache w0 !! url_2 with Some _ => [] | None => [Fetch url_2] end.
Proof.
  intros H. unfold run_notebook in H. run_inv H. simpl.
  match goal with
  | H1 : download_file _ url_1 _ w0 = Ok (?f1, ?wa),
    H2 : download_file _ url_2 _ ?wa = Ok (?f2, ?wb) |- _ =>
      apply download_file_inv in H1; destruct H1 as (_ & Hf1 & Hother1 & Hcase1);
      apply download_file_inv in H2; destruct H2 as (_ & Hf2 & Hother2 & Hcase2)
  end.
  pose proof url_1_neq_url_2 as Hne.
  rewrite fetched_queries.
  split; [|split].
  - rewrite Hother2 by exact Hne. exact Hf1.
  - exact Hf2.
  - rewrite Hother1 in Hcase2 by congruence.
    destruct (dl_cache w0 !! url_1), (dl_cache w0 !! url_2);
      destruct Hcase1 as [_ Hw1], Hcase2 as [_ Hw2]; subst;
      rewrite ?Hw2, ?Hw1, ?filter_app; simpl; rewrite ?app_nil_r;
      try rewrite <- app_assoc; reflexivity.
Qed.

(** *** The notebook runs to completion *)

Lemma bind_ok {A B : Type} (m : M A) (f : A -> M B) (w w1 : World) (a : A) :
  m w = Ok (a, w1) -> (m ≫= f) w = f a w1.
Proof. unfold mbind, M_bind. intros ->. reflexivity. Qed.

Lemma lift_ok {A : Type} (r : result A) (a : A) (w : World) :
  r = Ok a -> lift r w = Ok (a, w).
Proof. intros ->. reflexivity. Qed.

Lemma header_getitem_ok (l : positive) (h : Header) (key : string) (v : card)
    (w : World) :
  heap w !! l = Some h -> h !! key = Some v ->
  header_getitem l key w = Ok (v, w).
Proof.
  intros Hl Hv. unfold header_getitem. rewrite Hl. simpl. rewrite Hv.
  reflexivity.
Qed.

Lemma download_file_hit (url f : string) (w : World) :
  dl_cache w !! url = Some f -> download_file local_path url true w = Ok (f, w).
Proof. intros Hc. unfold download_file. rewrite Hc. reflexivity. Qed.

(** Runs the commands of a notebook one after the other. *)
Ltac run_fwd :=
  repeat first
    [ erewrite bind_ok by eassumption
    | erewrite bind_ok by (apply lift_ok; eassumption)
    | erewrite bind_ok by reflexivity ];
  cbv zeta.

(** The notebook raises no exception when both velocity axes have at
    least two entries (so that the first channel spacing, the minimum
    and the maximum exist) and the header of the cube that is
    reprojected has a rest frequency. *)
Lemma notebook_runs (w0 w1 w2 : World) (f1 f2 : string)
    (v1 v2 lo hi : R) (r : card) :
  download_file local_path url_1 true w0 = Ok (f1, w1) ->
  download_file local_path url_2 true w1 = Ok (f2, w2) ->
  velocity_res (spectral_axis
    (with_spectral_unit (read f1 : SpectralCube) km_per_s "radio" rest_value_H2CS))
    = Ok v1 ->
  velocity_res (spectral_axis
    (with_spectral_unit (read f2 : SpectralCube) km_per_s "radio" rest_value_SiO))
    = Ok v2 ->
  np_min (spectral_axis
    (with_spectral_unit (read f1 : SpectralCube) km_per_s "radio" rest_value_H2CS))
    = Ok lo ->
  np_max (spectral_axis
    (with_spectral_unit (read f1 : SpectralCube) km_per_s "radio" rest_value_H2CS))
    = Ok hi ->
  header
    (convolve_to
       (run_steps
          (spectral_steps lo hi v2 (spectral_smoothing_kernel (fwhm_gaussian v1 v2))
             (spectral_axis
                (with_spectral_unit (read f1 : SpectralCube) km_per_s "radio"
                   rest_value_H2CS)))
          (read f2 : SpectralCube))
       (common_2beams
          [beam (with_spectral_unit (read f1 : SpectralCube) km_per_s "radio"
                   rest_value_H2CS);
           beam (with_spectral_unit (read f2 : SpectralCube) km_per_s "radio"
                   rest_value_SiO)]))
    !! "RESTFRQ" = Some r ->
  exists ns w', notebook w0 = Ok (ns, w').
Proof.
  intros Hd1 Hd2 Hv1 Hv2 Hlo Hhi Hr.
  unfold run_steps, spectral_steps in Hr. simpl in Hr.
  unfold run_notebook. run_fwd.
  erewrite bind_ok
    by (eapply header_getitem_ok; [apply lookup_insert_eq | exact Hr]).
  run_fwd.
  eexists _, _. reflexivity.
Qed.

(** A notebook that has run once runs again on the world it left. *)
Lemma notebook_runs_again (w0 w1 : World) (ns : namespace) :
  notebook w0 = Ok (ns, w1) -> exists ns' w2, notebook w1 = Ok (ns', w2).
Proof.
  intros H. destruct (notebook_downloads _ _ _ H) as (Hc1 & Hc2 & _).
  unfold run_notebook in H. run_inv H. same_results. simpl in *.
  match goal with
  | Hget : <[_ := _]> _ !! _ ≫= _ = Some _ |- _ =>
      rewrite lookup_insert_eq in Hget; simpl in Hget
  end.
  eapply notebook_runs;
    try (apply download_file_hit; simpl; eassumption);
    try eassumption.
Qed.

(** C5: the notebook calls [download_file] on two fixed URLs with
    [cache=True].  A run fetches exactly those of the two files that
    are not yet cached (both, from an empty cache) and nothing else,
    and leaves both in the cache; a second run on the warm cache
    runs to completion, fetches nothing and gets the same two file
    names. *)
Theorem downloads_cached (w0 w1 : World) (ns : namespace) :
  notebook w0 = Ok (ns, w1) ->
  fetched w1 =
    fetched w0
    ++ match dl_cache w0 !! url_1 with Some _ => [] | None => [Fetch url_1] end
    ++ match dl_cache w0 !! url_2 with Some _ => [] | None => [Fetch url_2] end /\
  (dl_cache w0 = ∅ -> fetched w1 = fetched w0 ++ [Fetch url_1; Fetch url_2]) /\
  (exists (ns' : namespace) (w2 : World), notebook w1 = Ok (ns', w2)) /\
  forall (w2 : World) (ns' : namespace),
    notebook w1 = Ok (ns', w2) ->
    fetched w2 = fetched w1 /\
    ns.filename_1 ns' = ns.filename_1 ns /\
    ns.filename_2 ns' = ns.filename_2 ns.
Proof.
  intros H. destruct (notebook_downloads _ _ _ H) as (Hc1 & Hc2 & Hf).
  split; [exact Hf|split; [|split]].
  - intros He. rewrite Hf, He, !lookup_empty. reflexivity.
  - exact (notebook_runs_again _ _ _ H).
  - intros w2 ns' H'.
    destruct (notebook_downloads _ _ _ H') as (Hc1' & Hc2' & Hf').
    rewrite Hc1, Hc2, !app_nil_r in Hf'. split; [exact Hf'|].
    unfold run_notebook in H'. run_inv H'. simpl in *.
    match goal with
    | H1 : download_file _ url_1 _ w1 = Ok (?f1, ?wa),
      H2 : download_file _ url_2 _ ?wa = Ok (?f2, ?wb) |- _ =>
        apply download_file_inv in H1; destruct H1 as (_ & _ & _ & Hcase1);
        apply download_file_inv in H2; destruct H2 as (_ & _ & _ & Hcase2)
    end.
    rewrite Hc1 in Hcase1. destruct Hcase1 as [-> ->].
    rewrite Hc2 in Hcase2. destruct Hcase2 as [-> ->].
    split; reflexivity.
Qed.

(** *** Step 4: the numeric parameters in the notebook *)

(** The channel widths are the first channel spacings of the two
    velocity cubes, and the kernel is made from them by
    [fwhm_gaussian], [fwhm_to_sigma] and [spectral_smoothing_kernel]. *)
Lemma notebook_kernel (w0 w' : World) (ns : namespace) :
  notebook w0 = Ok (ns, w') ->
  velocity_res (spectral_axis (ns.cube1vel ns)) = Ok (ns.velocity_res_1 ns) /\
  velocity_res (spectral_axis (ns.cube2vel ns)) = Ok (ns.velocity_res_2 ns) /\
  ns.fwhm_gaussian ns =
    fwhm_gaussian (ns.velocity_res_1 ns) (ns.velocity_res_2 ns) /\
  ns.fwhm_to_sigma ns = fwhm_to_sigma /\
  ns.spectral_smoothing_kernel ns =
    spectral_smoothing_kernel (ns.fwhm_gaussian ns).
Proof.
  intros H. unfold run_notebook in H. run_inv H. simpl.
  repeat split; try reflexivity; assumption.
Qed.

(** A notebook that has run had at least two channels in each velocity
    cube. *)
Lemma notebook_needs_two_channels (w0 w' : World) (ns : namespace) :
  notebook w0 = Ok (ns, w') ->
  (2 <= length (spectral_axis (ns.cube1vel ns)))%nat /\
  (2 <= length (spectral_axis (ns.cube2vel ns)))%nat.
Proof.
  intros H. destruct (notebook_kernel _ _ _ H) as (H1 & H2 & _).
  split; eapply velocity_res_ok_length; eassumption.
Qed.

(** *** Step 3: velocity conversion *)

(** C4: each cube is converted with [with_spectral_unit] to km/s in
    the radio convention, with its own line as rest value:
    139.483699 GHz for [cube1], 217.104984 GHz for [cube2].  The
    library's conversion keeps the data values, so both velocity cubes
    have the data of the cubes they come from. *)
Theorem velocity_conversion
    (Hdata : with_spectral_unit_keeps_data memory)
    (w0 w' : World) (ns : namespace) :
  notebook w0 = Ok (ns, w') ->
  ns.cube1 ns = read (ns.filename_1 ns) /\
  ns.cube2 ns = read (ns.filename_2 ns) /\
  ns.cube1vel ns =
    with_spectral_unit (ns.cube1 ns) km_per_s "radio"
      (mkQuantity (139483699 / 1000000) GHz) /\
  ns.cube2vel ns =
    with_spectral_unit (ns.cube2 ns) km_per_s "radio"
      (mkQuantity (217104984 / 1000000) GHz) /\
  filled_data (ns.cube1vel ns) = filled_data (ns.cube1 ns) /\
  filled_data (ns.cube2vel ns) = filled_data (ns.cube2 ns).
Proof.
  intros H. unfold run_notebook in H. run_inv H. simpl.
  unfold with_spectral_unit_keeps_data in Hdata.
  rewrite !Hdata. repeat split; reflexivity.
Qed.

(** *** Step 4: spectral interpolation *)

(** C7: the cube is interpolated onto [cube1vel.spectral_axis].  The
    library gives the interpolated cube the spectral axis it is
    interpolated onto and leaves its spatial axes alone; so the
    resampled cube has the spectral axis of [cube1vel]: same values,
    same length, same first channel width, and the spatial axes of
    the smoothed cube it was made from. *)
Theorem resampled_spectral_axis
    (Hinterp : spectral_interpolate_onto_axis memory)
    (w0 w' : World) (ns : namespace) :
  notebook w0 = Ok (ns, w') ->
  ns.cube2vel_spectralresample ns =
    spectral_interpolate (ns.cube2vel_smooth ns)
      (spectral_axis (ns.cube1vel ns)) true /\
  spectral_axis (ns.cube2vel_spectralresample ns) =
    spectral_axis (ns.cube1vel ns) /\
  length (spectral_axis (ns.cube2vel_spectralresample ns)) =
    length (spectral_axis (ns.cube1vel ns)) /\
  velocity_res (spectral_axis (ns.cube2vel_spectralresample ns)) =
    Ok (ns.velocity_res_1 ns) /\
  celestial_grid (ns.cube2vel_spectralresample ns) =
    celestial_grid (ns.cube2vel_smooth ns).
Proof.
  destruct Hinterp as [Haxis Hsky].
  intros H. unfold run_notebook in H. run_inv H. simpl.
  rewrite Haxis, Hsky. repeat split; try reflexivity. assumption.
Qed.

(** *** Step 5: the common beam *)

(** C6: the beam given to [convolve_to] is [common_2beams] of the
    beams of [cube1vel] and [cube2vel].  [common_2beams] returns a
    beam that is larger than or equal to both beams and the smallest
    of those that are; so is [common_beam].  When one of the two beams
    is larger than or equal to the other, it is the common beam. *)
Theorem common_beam_smallest
    (beam_le : Beam -> Beam -> Prop) (area : Beam -> R)
    (Hcommon : smallest_common_beam beam_le area common_2beams)
    (w0 w' : World) (ns : namespace) :
  notebook w0 = Ok (ns, w') ->
  ns.common_beam ns =
    common_2beams [beam (ns.cube1vel ns); beam (ns.cube2vel ns)] /\
  ns.cube2vel_spatialspectralsmooth ns =
    convolve_to (ns.cube2vel_spectralresample ns) (ns.common_beam ns) /\
  beam_le (beam (ns.cube1vel ns)) (ns.common_beam ns) /\
  beam_le (beam (ns.cube2vel ns)) (ns.common_beam ns) /\
  (forall c, beam_le (beam (ns.cube1vel ns)) c ->
             beam_le (beam (ns.cube2vel ns)) c ->
             area (ns.common_beam ns) <= area c) /\
  (beam_le (beam (ns.cube2vel ns)) (beam (ns.cube1vel ns)) ->
     ns.common_beam ns = beam (ns.cube1vel ns)) /\
  (beam_le (beam (ns.cube1vel ns)) (beam (ns.cube2vel ns)) ->
     ns.common_beam ns = beam (ns.cube2vel ns)).
Proof.
  destruct Hcommon as (Hrefl & Harea & Hub & Hmin).
  intros H. unfold run_notebook in H. run_inv H. simpl.
  set (b1 := beam (with_spectral_unit _ _ _ rest_value_H2CS)).
  set (b2 := beam (with_spectral_unit _ _ _ rest_value_SiO)).
  destruct (Hub b1 b2) as [Hub1 Hub2].
  repeat split; try reflexivity; try assumption.
  - intros c. apply Hmin.
  - intros Hdom. apply Harea; [exact Hub1|].
    apply Hmin; [apply Hrefl | exact Hdom].
  - intros Hdom. apply Harea; [exact Hub2|].
    apply Hmin; [exact Hdom | apply Hrefl].
Qed.

(** *** Step 6: the target header *)

(** The heap after cell 47: [l1] is the copy of the target header,
    [l2] the header read for its rest frequency. *)
Lemma heap_after_cell_47 (hp : gmap positive Header) (h1 h2 : Header) (v : card) :
  let l1 := fresh (dom hp) in
  let l2 := fresh (dom (<[l1 := h1]> hp)) in
  let hp' := alter (<["RESTFRQ" := v]>) l1 (<[l2 := h2]> (<[l1 := h1]> hp)) in
  l2 <> l1 /\
  hp !! l1 = None /\
  hp' !! l1 = Some (<["RESTFRQ" := v]> h1) /\
  hp' !! l2 = Some h2 /\
  (forall l h, hp !! l = Some h -> hp' !! l = Some h).
Proof.
  intros l1 l2 hp'.
  assert (Hl1 : hp !! l1 = None) by (apply not_elem_of_dom, is_fresh).
  assert (Hl2 : l2 <> l1).
  { intros Heq. apply (is_fresh (dom (<[l1 := h1]> hp))).
    fold l2. rewrite Heq, dom_insert_L. set_solver. }
  assert (Hl2' : hp !! l2 = None).
  { apply not_elem_of_dom. intros Hin.
    apply (is_fresh (dom (<[l1 := h1]> hp))).
    fold l2. rewrite dom_insert_L. set_solver. }
  unfold hp'. repeat split; try assumption.
  - rewrite lookup_alter_eq, lookup_insert_ne, lookup_insert_eq by exact Hl2.
    reflexivity.
  - rewrite lookup_alter_ne, lookup_insert_eq by congruence. reflexivity.
  - intros l h Hl.
    rewrite lookup_alter_ne, !lookup_insert_ne by congruence. exact Hl.
Qed.

(** C8: [tgthdr] is a new header object with the content of
    [cube1vel]'s header, in which only [RESTFRQ] is overwritten, with
    the [RESTFRQ] of the cube that is reprojected; it is the target of
    [reproject].  The assignment updates that object alone: the
    header objects that existed before the run, and the one read for
    the rest frequency, keep their content; and [cube1vel] is at the
    end the cube that Step 3 made. *)
Theorem target_header_is_a_copy (w0 w' : World) (ns : namespace) :
  notebook w0 = Ok (ns, w') ->
  exists (restfrq : card) (target : Header) (hdr2 : positive),
    header (ns.cube2vel_spatialspectralsmooth ns) !! "RESTFRQ" = Some restfrq /\
    heap w' !! ns.tgthdr ns = Some target /\
    target = <["RESTFRQ" := restfrq]> (header (ns.cube1vel ns)) /\
    target !! "RESTFRQ" = Some restfrq /\
    (forall key, key <> "RESTFRQ" ->
       target !! key = header (ns.cube1vel ns) !! key) /\
    ns.cube2vel_reproj ns =
      reproject (ns.cube2vel_spatialspectralsmooth ns) target /\
    heap w0 !! ns.tgthdr ns = None /\
    (forall l h, heap w0 !! l = Some h -> heap w' !! l = Some h) /\
    hdr2 <> ns.tgthdr ns /\
    heap w' !! hdr2 = Some (header (ns.cube2vel_spatialspectralsmooth ns)) /\
    ns.cube1vel ns =
      with_spectral_unit (read (ns.filename_1 ns)) km_per_s "radio"
        rest_value_H2CS.
Proof.
  intros H. unfold run_notebook in H. run_inv H. simpl.
  repeat match goal with
  | Hd : download_file _ _ _ _ = Ok _ |- _ =>
      apply download_file_inv in Hd; destruct Hd as (Hd & _)
  end.
  repeat match goal with Heq : ?l = fresh _ |- _ => subst l end.
  match goal with
  | Hget : <[_ := ?h2]> (<[_ := ?h1]> ?hp) !! _ ≫= _ = Some ?v |- _ =>
      rewrite lookup_insert_eq in Hget; simpl in Hget;
      destruct (heap_after_cell_47 hp h1 h2 v)
        as (Hne & Hnew & Htgt & Hhdr2 & Hframe);
      exists v, (<["RESTFRQ" := v]> h1),
        (fresh (dom (<[fresh (dom hp) := h1]> hp)))
  end.
  rewrite Htgt. simpl.
  repeat split; try assumption; try reflexivity.
  - apply lookup_insert_eq.
  - intros key Hkey. apply lookup_insert_ne. congruence.
  - congruence.
  - intros l h Hl. apply Hframe. congruence.
Qed.

End NotebookFacts.

(** ** The theorems on the small library instance *)

Lemma velocity_res_needs_two_entries_witness :
  velocity_res [7] = Raise IndexError /\
  (0 < length (np_diff [0; 5; 10]%R))%nat /\
  exists x y t,
    ([0; 5; 10] : list R) = x :: y :: t /\ velocity_res [0; 5; 10] = Ok (y - x).
Proof.
  split.
  - apply (proj1 (velocity_res_needs_two_entries [7])). simpl. lia.
  - apply (proj2 (velocity_res_needs_two_entries [0; 5; 10])). simpl. lia.
Defined.

Lemma Rabs_3_le_5 : Rabs 3 <= Rabs (-5).
Proof. rewrite (Rabs_left (-5)), (Rabs_pos_eq 3) by lra. lra. Qed.

Lemma square_in_double_range_5_3 :
  square_in_double_range (-5) /\ square_in_double_range 3.
Proof.
  split; apply square_in_double_range_intro.
  - rewrite Rabs_left by lra. lra.
  - rewrite Rabs_pos_eq by lra. lra.
Qed.

Lemma fwhm_gaussian_real_iff_witness :
  is_real (fwhm_gaussian (-5) 3) /\
  exists w s,
    fwhm_gaussian (-5) 3 = Finite w /\ 0 <= w /\
    kernel_stddev (fwhm_gaussian (-5) 3) = Finite s /\
    s = w / fwhm_to_sigma /\ 0 <= s.
Proof.
  destruct square_in_double_range_5_3 as [H5 H3].
  split.
  - apply (proj1 (fwhm_gaussian_real_iff (-5) 3 H5 H3)). exact Rabs_3_le_5.
  - apply (proj1 (proj2 (fwhm_gaussian_real_iff (-5) 3 H5 H3))). exact Rabs_3_le_5.
Defined.

Lemma recording_run_ok : exists ns w', Recording.run = Ok (ns, w').
Proof.
  unfold Recording.run.
  eapply (notebook_runs (memory := Recording.memory) (dask := Recording.dask)
            Recording.common_2beams Recording.path Recording.w0
            (mkWorld {[ url_1 := Recording.path url_1 ]} [Fetch url_1] ∅)
            (mkWorld (<[url_2 := Recording.path url_2]> {[ url_1 := Recording.path url_1 ]})
               [Fetch url_1; Fetch url_2] ∅)
            (Recording.path url_1) (Recording.path url_2)
            (5 - 0) (3 - 0) (Rmin (Rmin 0 5) 10) (Rmax (Rmax 0 5) 10)
            (CFloat (217104984 / 1000000 * 1000000000))).
  - reflexivity.
  - unfold download_file. simpl.
    rewrite lookup_singleton_ne by discriminate. reflexivity.
  - reflexivity.
  - reflexivity.
  - reflexivity.
  - reflexivity.
  - simpl. apply lookup_insert_eq.
Qed.

(** Proves a fact about the outcome [(ns, w')] of the run on the small
    instance by evaluating the run. *)
Ltac by_running Hrun :=
  match type of Hrun with
  | ?run = Ok (?n, ?w) =>
      pattern n, w;
      match goal with
      | |- ?P n w =>
          change (match Ok (n, w) with
                  | Ok (n', w') => P n' w'
                  | Raise _ => True
                  end);
          rewrite <- Hrun; vm_compute; repeat split; reflexivity
      end
  end.

(** The small instance has the properties the notebook relies on. *)

Lemma recording_keeps_data : with_spectral_unit_keeps_data Recording.memory.
Proof. intros c u conv rest. reflexivity. Qed.

Lemma recording_interpolate_onto_axis : spectral_interpolate_onto_axis Recording.memory.
Proof. split; intros; reflexivity. Qed.

Lemma recording_smallest_common_beam :
  smallest_common_beam le Recording.area Recording.common_2beams.
Proof.
  unfold smallest_common_beam, Recording.area, Recording.common_2beams. simpl.
  split; [|split; [|split]].
  - intros a. lia.
  - intros a c Hle Har. apply INR_le in Har. lia.
  - intros a b. lia.
  - intros a b c Ha Hb. apply le_INR. lia.
Qed.

Lemma velocity_conversion_witness :
  exists ns w',
    Recording.run = Ok (ns, w') /\
    filled_data (ns.cube1vel ns) = [1; 2; 3] /\
    filled_data (ns.cube1vel ns) = filled_data (ns.cube1 ns) /\
    filled_data (ns.cube2vel ns) = filled_data (ns.cube2 ns).
Proof.
  destruct recording_run_ok as (ns & w' & Hrun).
  exists ns, w'. split; [exact Hrun|]. split; [by_running Hrun|].
  apply (velocity_conversion (memory := Recording.memory) (dask := Recording.dask)
           Recording.common_2beams Recording.path recording_keeps_data Recording.w0 w' ns Hrun).
Defined.

Lemma resampled_spectral_axis_witness :
  exists ns w',
    Recording.run = Ok (ns, w') /\
    spectral_axis (ns.cube2vel_spectralresample ns) = [0; 5; 10] /\
    spectral_axis (ns.cube2vel_spectralresample ns) =
      spectral_axis (ns.cube1vel ns) /\
    celestial_grid (ns.cube2vel_spectralresample ns) =
      celestial_grid (ns.cube2vel_smooth ns).
Proof.
  destruct recording_run_ok as (ns & w' & Hrun).
  exists ns, w'. split; [exact Hrun|]. split; [by_running Hrun|].
  destruct (resampled_spectral_axis (memory := Recording.memory) (dask := Recording.dask)
              Recording.common_2beams Recording.path recording_interpolate_onto_axis
              Recording.w0 w' ns Hrun)
    as (_ & Hax & _ & _ & Hsky).
  split; assumption.
Defined.

Lemma common_beam_smallest_witness :
  exists ns w',
    Recording.run = Ok (ns, w') /\
    beam (ns.cube1vel ns) = 3%nat /\ beam (ns.cube2vel ns) = 2%nat /\
    ns.common_beam ns = 3%nat /\
    (beam (ns.cube2vel ns) <= beam (ns.cube1vel ns) ->
       ns.common_beam ns = beam (ns.cube1vel ns))%nat.
Proof.
  destruct recording_run_ok as (ns & w' & Hrun).
  exists ns, w'. split; [exact Hrun|].
  split; [by_running Hrun|]. split; [by_running Hrun|]. split; [by_running Hrun|].
  destruct (common_beam_smallest (memory := Recording.memory) (dask := Recording.dask)
              Recording.common_2beams Recording.path le Recording.area recording_smallest_common_beam
              Recording.w0 w' ns Hrun)
    as (_ & _ & _ & _ & _ & Hdom & _).
  exact Hdom.
Defined.

Lemma target_header_is_a_copy_witness :
  exists ns w',
    Recording.run = Ok (ns, w') /\
    exists (restfrq : card) (target : Header),
      heap w' !! ns.tgthdr ns = Some target /\
      target !! "RESTFRQ" = Some restfrq /\
      restfrq = CFloat (217104984 / 1000000 * 1000000000) /\
      header (ns.cube1vel ns) !! "RESTFRQ" =
        Some (CFloat (139483699 / 1000000 * 1000000000)).
Proof.
  destruct recording_run_ok as (ns & w' & Hrun).
  exists ns, w'. split; [exact Hrun|].
  destruct (target_header_is_a_copy (memory := Recording.memory) (dask := Recording.dask)
              Recording.common_2beams Recording.path Recording.w0 w' ns Hrun)
    as (restfrq & target & hdr2 & Hr & Ht & _ & Hk & _).
  exists restfrq, target. split; [exact Ht|]. split; [exact Hk|].
  split.
  - assert (Hr' : header (ns.cube2vel_spatialspectralsmooth ns) !! "RESTFRQ" =
                  Some (CFloat (217104984 / 1000000 * 1000000000)))
      by by_running Hrun.
    congruence.
  - by_running Hrun.
Defined.

Lemma downloads_cached_witness :
  exists ns w1,
    Recording.run = Ok (ns, w1) /\
    fetched w1 = [Fetch url_1; Fetch url_2] /\
    exists (ns' : ns.t nat Recording.cube Recording.lazy_cube) (w2 : World),
      run_notebook (memory := Recording.memory) (dask := Recording.dask)
        Recording.common_2beams Recording.path w1 = Ok (ns', w2) /\
      fetched w2 = fetched w1 /\
      ns.filename_1 ns' = ns.filename_1 ns /\
      ns.filename_2 ns' = ns.filename_2 ns.
Proof.
  destruct recording_run_ok as (ns & w1 & Hrun).
  exists ns, w1. split; [exact Hrun|].
  destruct (downloads_cached (memory := Recording.memory) (dask := Recording.dask)
              Recording.common_2beams Recording.path Recording.w0 w1 ns Hrun)
    as (_ & Hcold & (ns' & w2 & Hrun') & Hwarm).
  split; [apply (Hcold eq_refl)|].
  exists ns', w2. split; [exact Hrun'|].
  apply (Hwarm w2 ns' Hrun').
Defined.

(** ** Further properties: the numeric cells *)

(** *** [.min()] and [.max()] (cells 27, 29, 55) *)

Lemma fold_left_Rmin_le (l : list R) (x : R) : fold_left Rmin l x <= x.
Proof.
  revert x. induction l as [|a l IH]; intros x; simpl; [lra|].
  pose proof (IH (Rmin x a)). pose proof (Rmin_l x a). lra.
Qed.

Lemma fold_left_Rmin_lower (l : list R) (x y : R) :
  y ∈ l -> fold_left Rmin l x <= y.
Proof.
  revert x. induction l as [|a l IH]; intros x Hy; simpl.
  - inversion Hy.
  - apply elem_of_cons in Hy as [->|Hy].
    + pose proof (fold_left_Rmin_le l (Rmin x a)). pose proof (Rmin_r x a). lra.
    + apply IH. exact Hy.
Qed.

Lemma fold_left_Rmin_elem (l : list R) (x : R) : fold_left Rmin l x ∈ x :: l.
Proof.
  revert x. induction l as [|a l IH]; intros x; simpl;
    [apply elem_of_cons; left; reflexivity|].
  specialize (IH (Rmin x a)).
  apply elem_of_cons in IH as [IH|IH].
  - rewrite IH. destruct (Rle_dec x a) as [Hle|Hgt].
    + rewrite Rmin_left by exact Hle. apply elem_of_cons; left; reflexivity.
    + rewrite Rmin_right by lra. apply elem_of_cons; right; apply elem_of_cons; left; reflexivity.
  - apply elem_of_cons; right; apply elem_of_cons; right; exact IH.
Qed.

Lemma fold_left_Rmax_ge (l : list R) (x : R) : x <= fold_left Rmax l x.
Proof.
  revert x. induction l as [|a l IH]; intros x; simpl; [lra|].
  pose proof (IH (Rmax x a)). pose proof (Rmax_l x a). lra.
Qed.

Lemma fold_left_Rmax_upper (l : list R) (x y : R) :
  y ∈ l -> y <= fold_left Rmax l x.
Proof.
  revert x. induction l as [|a l IH]; intros x Hy; simpl.
  - inversion Hy.
  - apply elem_of_cons in Hy as [->|Hy].
    + pose proof (fold_left_Rmax_ge l (Rmax x a)). pose proof (Rmax_r x a). lra.
    + apply IH. exact Hy.
Qed.

Lemma fold_left_Rmax_elem (l : list R) (x : R) : fold_left Rmax l x ∈ x :: l.
Proof.
  revert x. induction l as [|a l IH]; intros x; simpl;
    [apply elem_of_cons; left; reflexivity|].
  specialize (IH (Rmax x a)).
  apply elem_of_cons in IH as [IH|IH].
  - rewrite IH. destruct (Rle_dec x a) as [Hle|Hgt].
    + rewrite Rmax_right by exact Hle. apply elem_of_cons; right; apply elem_of_cons; left; reflexivity.
    + rewrite Rmax_left by lra. apply elem_of_cons; left; reflexivity.
  - apply elem_of_cons; right; apply elem_of_cons; right; exact IH.
Qed.

(** X1: on an empty array [.min()] and [.max()] raise [ValueError]; on
    any other array they return entries of the array that bound every
    entry from below and from above, so the minimum is at most the
    maximum. *)
Theorem np_min_max_bounds (a : list R) :
  (a = [] /\ np_min a = Raise ValueError /\ np_max a = Raise ValueError) \/
  (exists lo hi,
     np_min a = Ok lo /\ np_max a = Ok hi /\
     lo ∈ a /\ hi ∈ a /\
     (forall y, y ∈ a -> lo <= y <= hi) /\
     lo <= hi).
Proof.
  destruct a as [|x t]; [left; repeat split|right].
  exists (fold_left Rmin t x), (fold_left Rmax t x).
  assert (Hbound : forall y, y ∈ x :: t ->
            fold_left Rmin t x <= y <= fold_left Rmax t x).
  { intros y Hy. apply elem_of_cons in Hy as [->|Hy].
    - split; [apply fold_left_Rmin_le | apply fold_left_Rmax_ge].
    - split; [apply fold_left_Rmin_lower | apply fold_left_Rmax_upper]; exact Hy. }
  split; [reflexivity|]. split; [reflexivity|].
  split; [apply fold_left_Rmin_elem|]. split; [apply fold_left_Rmax_elem|].
  split; [exact Hbound|].
  pose proof (fold_left_Rmin_le t x). pose proof (fold_left_Rmax_ge t x). lra.
Qed.

(** *** Increasing and decreasing axes *)

Section FoldChain.
Variable rel : R -> R -> Prop.
Variable op : R -> R -> R.
Hypothesis rel_trans : forall x y z, rel x y -> rel y z -> rel x z.

Lemma chain_skip (x y : R) (t : list R) :
  rel x y -> chain rel (y :: t) -> chain rel (x :: t).
Proof.
  destruct t as [|z t]; simpl; [tauto|].
  intros Hxy [Hyz Ht]. split; [eapply rel_trans; eassumption | exact Ht].
Qed.

Lemma fold_left_chain_first (t : list R) (x : R) :
  (forall u v, rel u v -> op u v = u) ->
  chain rel (x :: t) -> fold_left op t x = x.
Proof.
  intros Hop. revert x. induction t as [|y t IH]; intros x Hc; [reflexivity|].
  destruct Hc as [Hxy Hc]. simpl. rewrite (Hop _ _ Hxy).
  apply IH. eapply chain_skip; eassumption.
Qed.

Lemma fold_left_chain_last (t : list R) (x : R) :
  (forall u v, rel u v -> op u v = v) ->
  chain rel (x :: t) -> last (x :: t) = Some (fold_left op t x).
Proof.
  intros Hop. revert x. induction t as [|y t IH]; intros x Hc; [reflexivity|].
  destruct Hc as [Hxy Hc]. simpl fold_left. rewrite (Hop _ _ Hxy).
  rewrite <- (IH y Hc). reflexivity.
Qed.
End FoldChain.

Lemma np_diff_nonneg_chain (a : list R) :
  Forall (fun d => 0 <= d) (np_diff a) -> chain Rle a.
Proof.
  induction a as [|x [|y t] IH]; simpl; try tauto.
  intros H. apply Forall_cons in H as [Hd H].
  split; [lra | apply IH; exact H].
Qed.

Lemma np_diff_nonpos_chain (a : list R) :
  Forall (fun d => d <= 0) (np_diff a) -> chain Rge a.
Proof.
  induction a as [|x [|y t] IH]; simpl; try tauto.
  intros H. apply Forall_cons in H as [Hd H].
  split; [lra | apply IH; exact H].
Qed.

(** X2: for a spectral axis whose consecutive differences are all
    nonnegative (an increasing axis), [.min()] is its first entry and
    [.max()] its last; for one whose differences are all nonpositive (a
    decreasing axis, as a radio velocity axis over increasing
    frequency), [.min()] is its last entry and [.max()] its first. *)
Theorem min_max_of_monotone_axis (a : list R) (first final : R) :
  head a = Some first -> last a = Some final ->
  (Forall (fun d => 0 <= d) (np_diff a) ->
     np_min a = Ok first /\ np_max a = Ok final) /\
  (Forall (fun d => d <= 0) (np_diff a) ->
     np_min a = Ok final /\ np_max a = Ok first).
Proof.
  destruct a as [|x t]; [discriminate|].
  intros Hh Hl. injection Hh as ->. simpl np_min. simpl np_max.
  split; intros Hd.
  - apply np_diff_nonneg_chain in Hd. split; f_equal.
    + apply (fold_left_chain_first Rle Rmin Rle_trans); [|exact Hd].
      intros u v Huv. apply Rmin_left. exact Huv.
    + pose proof (fold_left_chain_last Rle Rmax t first) as Hlast.
      rewrite Hlast in Hl; [congruence| |exact Hd].
      intros u v Huv. apply Rmax_right. exact Huv.
  - apply np_diff_nonpos_chain in Hd. split; f_equal.
    + pose proof (fold_left_chain_last Rge Rmin t first) as Hlast.
      rewrite Hlast in Hl; [congruence| |exact Hd].
      intros u v Huv. apply Rmin_right. lra.
    + apply (fold_left_chain_first Rge Rmax Rge_trans); [|exact Hd].
      intros u v Huv. apply Rmax_left. lra.
Qed.

Lemma min_max_of_monotone_axis_witness :
  (np_min [0; 5; 10] = Ok 0 /\ np_max [0; 5; 10] = Ok 10) /\
  (np_min [10; 5; 0] = Ok 0 /\ np_max [10; 5; 0] = Ok 10).
Proof.
  split.
  - apply (proj1 (min_max_of_monotone_axis [0; 5; 10] 0 10 eq_refl eq_refl)).
    simpl. repeat constructor; lra.
  - apply (proj2 (min_max_of_monotone_axis [10; 5; 0] 10 0 eq_refl eq_refl)).
    simpl. repeat constructor; lra.
Defined.

(** *** The kernel width (cells 31 and 32) *)

Lemma sq_eq_iff_Rabs (a b : R) : a ^ 2 = b ^ 2 <-> Rabs a = Rabs b.
Proof.
  split; intros H.
  - apply Rle_antisym; apply sq_le_iff_Rabs; lra.
  - assert (H1 : Rabs a <= Rabs b) by lra. assert (H2 : Rabs b <= Rabs a) by lra.
    apply sq_le_iff_Rabs in H1, H2. lra.
Qed.

(** X3: the kernel width depends on the channel widths only through
    their magnitudes: reversing the direction of either spectral axis
    (the sign of its channel spacing) gives the same [fwhm_gaussian]. *)
Theorem fwhm_gaussian_sign_independent (velocity_res_1 velocity_res_2 : R) :
  fwhm_gaussian (- velocity_res_1) velocity_res_2 =
    fwhm_gaussian velocity_res_1 velocity_res_2 /\
  fwhm_gaussian velocity_res_1 (- velocity_res_2) =
    fwhm_gaussian velocity_res_1 velocity_res_2 /\
  fwhm_gaussian (Rabs velocity_res_1) (Rabs velocity_res_2) =
    fwhm_gaussian velocity_res_1 velocity_res_2.
Proof.
  unfold fwhm_gaussian. repeat split; f_equal.
  - ring.
  - ring.
  - rewrite !pow2_abs. reflexivity.
Qed.

(** X4: for a first channel width whose square neither overflows nor
    underflows, a real kernel width lies between 0 and the magnitude of
    the first cube's channel width; it is 0 when the two channel widths
    have the same magnitude (the kernel then has [stddev] 0), and it is
    the magnitude of the first channel width when the second channel
    width is 0. *)
Theorem fwhm_gaussian_range (velocity_res_1 velocity_res_2 : R) :
  square_in_double_range velocity_res_1 ->
  Rabs velocity_res_2 <= Rabs velocity_res_1 ->
  exists w,
    fwhm_gaussian velocity_res_1 velocity_res_2 = Finite w /\
    0 <= w <= Rabs velocity_res_1 /\
    (Rabs velocity_res_1 = Rabs velocity_res_2 ->
       w = 0 /\
       kernel_stddev (fwhm_gaussian velocity_res_1 velocity_res_2) = Finite 0) /\
    (velocity_res_2 = 0 -> w = Rabs velocity_res_1).
Proof.
  intros _ Hle. rewrite (fwhm_gaussian_finite _ _ Hle).
  set (d := velocity_res_1 ^ 2 - velocity_res_2 ^ 2).
  assert (Hd : 0 <= d) by (apply sq_le_iff_Rabs in Hle; unfold d; lra).
  pose proof (sqrt_pos d) as Hw. pose proof (Rabs_pos velocity_res_1) as Ha.
  exists (sqrt d). split; [reflexivity|]. split; [|split].
  - split; [exact Hw|].
    apply sq_le_iff_Rabs in Hle.
    rewrite <- (sqrt_Rsqr (Rabs velocity_res_1)) by exact Ha.
    apply sqrt_le_1_alt. unfold Rsqr, d.
    pose proof (pow2_abs velocity_res_1) as Habs.
    pose proof (pow2_ge_0 velocity_res_2). simpl in *. lra.
  - intros Heq. apply sq_eq_iff_Rabs in Heq.
    assert (Hd0 : d = 0) by (unfold d; lra).
    rewrite Hd0, sqrt_0. split; [reflexivity|].
    unfold kernel_stddev, float_div. f_equal. unfold Rdiv. ring.
  - intros ->. unfold d.
    replace (velocity_res_1 ^ 2 - 0 ^ 2) with (Rsqr velocity_res_1)
      by (unfold Rsqr; ring).
    apply sqrt_Rsqr_abs.
Qed.

Lemma fwhm_gaussian_range_witness :
  exists w,
    fwhm_gaussian (-5) 3 = Finite w /\
    0 <= w <= Rabs (-5) /\
    (Rabs (-5) = Rabs 3 ->
       w = 0 /\ kernel_stddev (fwhm_gaussian (-5) 3) = Finite 0) /\
    (3 = 0 -> w = Rabs (-5)).
Proof.
  apply (fwhm_gaussian_range (-5) 3).
  - exact (proj1 square_in_double_range_5_3).
  - exact Rabs_3_le_5.
Defined.

(** ** Further properties: exceptions *)

Lemma bind_raise {A B : Type} (m : M A) (f : A -> M B) (w : World) (e : exn) :
  m w = Raise e -> (m ≫= f) w = Raise e.
Proof. unfold mbind, M_bind. intros ->. reflexivity. Qed.

Lemma lift_raise {A : Type} (r : result A) (e : exn) (w : World) :
  r = Raise e -> lift r w = Raise e.
Proof. intros ->. reflexivity. Qed.

Lemma velocity_res_raise (ax : list R) (e : exn) :
  velocity_res ax = Raise e -> e = IndexError /\ (length ax < 2)%nat.
Proof.
  destruct ax as [|x [|y t]]; simpl; intros H; try discriminate;
    injection H as <-; split; try reflexivity; lia.
Qed.

Lemma velocity_res_min_max (ax : list R) (v : R) :
  velocity_res ax = Ok v -> exists lo hi, np_min ax = Ok lo /\ np_max ax = Ok hi.
Proof.
  destruct ax as [|x t]; [discriminate|].
  intros _. eexists _, _. split; reflexivity.
Qed.

Lemma velocity_res_short (ax : list R) :
  (length ax < 2)%nat -> velocity_res ax = Raise IndexError.
Proof. destruct ax as [|x [|y t]]; simpl; intros H; try reflexivity. lia. Qed.

Lemma download_file_cached_file (local_path : string -> string)
    (url : string) (w : World) :
  exists w1,
    download_file local_path url true w = Ok (cached_file local_path w url, w1) /\
    forall u, u <> url -> dl_cache w1 !! u = dl_cache w !! u.
Proof.
  unfold download_file, cached_file.
  destruct (dl_cache w !! url) as [f|] eqn:Hc; eexists; (split; [reflexivity|]).
  - intros u _. reflexivity.
  - intros u Hu. simpl. apply lookup_insert_ne. congruence.
Qed.

(** Runs the commands of a notebook one after the other, as long as
    they are known to succeed. *)
Ltac step_fwd :=
  repeat first
    [ erewrite bind_ok by eassumption
    | erewrite bind_ok by (apply lift_ok; eassumption)
    | erewrite bind_ok by reflexivity ];
  cbv zeta.

Section NotebookOutcome.
Context {Beam Data SkyGrid SpectralCube DaskSpectralCube : Type}.
Context {memory : SpectralCubeAPI Beam Data SkyGrid SpectralCube}.
Context {dask : SpectralCubeAPI Beam Data SkyGrid DaskSpectralCube}.
Variable common_2beams : list Beam -> Beam.
Variable local_path : string -> string.

#[local] Abbreviation notebook :=
  (run_notebook (memory := memory) (dask := dask) common_2beams local_path).
#[local] Abbreviation namespace := (ns.t Beam SpectralCube DaskSpectralCube).
#[local] Abbreviation axis1 w0 :=
  (spectral_axis (cube1vel_in (memory := memory) local_path w0)).
#[local] Abbreviation axis2 w0 :=
  (spectral_axis (cube2vel_in (memory := memory) local_path w0)).

(** X6: when the velocity axis of one of the two cubes has fewer than
    two entries, the notebook stops with [IndexError] (in cell 25). *)
Theorem notebook_index_error (w0 : World) :
  (length (axis1 w0) < 2)%nat \/ (length (axis2 w0) < 2)%nat ->
  notebook w0 = Raise IndexError.
Proof.
  destruct (download_file_cached_file local_path url_1 w0) as (w1 & Hd1 & Hc1).
  destruct (download_file_cached_file local_path url_2 w1) as (w2 & Hd2 & _).
  assert (Hf2 : cached_file local_path w1 url_2 = cached_file local_path w0 url_2).
  { unfold cached_file. rewrite Hc1; [reflexivity|].
    intros Heq. symmetry in Heq. revert Heq. discriminate. }
  rewrite Hf2 in Hd2.
  unfold cube1vel_in, cube2vel_in, run_notebook.
  intros Hshort.
  destruct (velocity_res
              (spectral_axis
                 (with_spectral_unit
                    (read (cached_file local_path w0 url_1) : SpectralCube)
                    km_per_s "radio" rest_value_H2CS)))
    as [v1|e1] eqn:Hv1.
  2:{ apply velocity_res_raise in Hv1 as [-> Hlen].
      apply velocity_res_short in Hlen.
      step_fwd. apply bind_raise, lift_raise. exact Hlen. }
  destruct Hshort as [Hlen|Hlen].
  { apply velocity_res_ok_length in Hv1. lia. }
  apply velocity_res_short in Hlen.
  step_fwd. apply bind_raise, lift_raise. exact Hlen.
Qed.

End NotebookOutcome.

Lemma notebook_index_error_witness : Bare.run [7] ∅ = Raise IndexError.
Proof.
  apply (notebook_index_error
           (memory := Bare.api [7] ∅) (dask := Bare.api [7] ∅)
           (fun _ => ()) (fun url => url) (mkWorld ∅ [] ∅)).
  left. simpl. lia.
Defined.

(** ** Further properties: the world after a run *)

Section NotebookWorld.
Context {Beam Data SkyGrid SpectralCube DaskSpectralCube : Type}.
Context {memory : SpectralCubeAPI Beam Data SkyGrid SpectralCube}.
Context {dask : SpectralCubeAPI Beam Data SkyGrid DaskSpectralCube}.
Variable common_2beams : list Beam -> Beam.
Variable local_path : string -> string.

#[local] Abbreviation notebook :=
  (run_notebook (memory := memory) (dask := dask) common_2beams local_path).
#[local] Abbreviation namespace := (ns.t Beam SpectralCube DaskSpectralCube).

(** Inverts the two downloads of a run. *)
Ltac downloads_inv :=
  match goal with
  | H1 : download_file _ url_1 _ ?wa = Ok (_, ?wb),
    H2 : download_file _ url_2 _ ?wb = Ok (_, _) |- _ =>
      apply download_file_inv in H1;
      destruct H1 as (Hheap1 & Hfile1 & Hother1 & Hcase1);
      apply download_file_inv in H2;
      destruct H2 as (Hheap2 & Hfile2 & Hother2 & Hcase2);
      rewrite Hother1 in Hcase2 by (intros Heq; revert Heq; discriminate)
  end.

(** X10: the network accesses of a run, in order: the fetch of the
    first file if it is not cached, the fetch of the second file if it
    is not cached, then the Splatalogue queries for [" H2CS "] and for
    ["SiO"]; nothing else is added to the log and nothing is removed. *)
Theorem network_accesses_in_order (w0 w' : World) (ns : namespace) :
  notebook w0 = Ok (ns, w') ->
  net_log w' =
    net_log w0
    ++ match dl_cache w0 !! url_1 with Some _ => [] | None => [Fetch url_1] end
    ++ match dl_cache w0 !! url_2 with Some _ => [] | None => [Fetch url_2] end
    ++ [SplatalogueQuery " H2CS "; SplatalogueQuery "SiO"].
Proof.
  intros H. unfold run_notebook in H. run_inv H. simpl. downloads_inv.
  destruct (dl_cache w0 !! url_1), (dl_cache w0 !! url_2);
    destruct Hcase1 as [_ Hw1], Hcase2 as [_ Hw2]; subst;
    rewrite ?Hw2, ?Hw1; simpl; rewrite <- ?app_assoc; reflexivity.
Qed.

(** X11: a run only adds to the world.  Every cache entry stays as it
    was and the cache gains entries for the two URLs only; the heap
    gains exactly two header objects, the target header and the header
    read for the rest frequency, both new. *)
Theorem run_extends_world (w0 w' : World) (ns : namespace) :
  notebook w0 = Ok (ns, w') ->
  dl_cache w0 ⊆ dl_cache w' /\
  dom (dl_cache w') = {[ url_1; url_2 ]} ∪ dom (dl_cache w0) /\
  exists hdr2 : positive,
    hdr2 <> ns.tgthdr ns /\
    (ns.tgthdr ns ∉ dom (heap w0)) /\ (hdr2 ∉ dom (heap w0)) /\
    dom (heap w') = {[ ns.tgthdr ns; hdr2 ]} ∪ dom (heap w0).
Proof.
  intros H. unfold run_notebook in H. run_inv H. simpl.
  repeat match goal with Heq : ?l = fresh _ |- _ => subst l end.
  match goal with
  | Hget : <[_ := ?h2]> (<[_ := ?h1]> ?hp) !! _ ≫= _ = Some ?v |- _ =>
      destruct (heap_after_cell_47 hp h1 h2 v) as (Hne & Hnew & _);
      pose proof (is_fresh (dom (<[fresh (dom hp) := h1]> hp))) as Hnew2;
      clear Hget
  end.
  downloads_inv.
  split; [|split].
  - match goal with
    | |- _ ⊆ dl_cache ?wb =>
        apply map_subseteq_spec; intros u f Hu;
        destruct (decide (u = url_2)) as [->|Hu2];
          [|rewrite Hother2 by exact Hu2;
            destruct (decide (u = url_1)) as [->|Hu1];
              [|rewrite Hother1 by exact Hu1; exact Hu]]
    end.
    + rewrite Hu in Hcase2. destruct Hcase2 as [-> _]. exact Hfile2.
    + rewrite Hu in Hcase1. destruct Hcase1 as [-> _]. exact Hfile1.
  - apply set_eq. intros u. rewrite elem_of_union, !elem_of_dom.
    rewrite elem_of_union, !elem_of_singleton.
    destruct (decide (u = url_2)) as [->|Hu2].
    { rewrite Hfile2. split; [intros _; left; right; reflexivity | eauto]. }
    rewrite Hother2 by exact Hu2.
    destruct (decide (u = url_1)) as [->|Hu1].
    { rewrite Hfile1. split; [intros _; left; left; reflexivity | eauto]. }
    rewrite Hother1 by exact Hu1. tauto.
  - eexists. split; [exact Hne|].
    rewrite dom_insert_L, Hheap2, Hheap1 in Hnew2.
    rewrite Hheap2, Hheap1 in Hnew.
    rewrite dom_alter_L, !dom_insert_L, Hheap2, Hheap1.
    split; [apply not_elem_of_dom; exact Hnew|].
    split.
    + intros Hin. apply Hnew2. apply elem_of_union. right. exact Hin.
    + rewrite (assoc_L (∪)). f_equal. apply (comm_L (∪)).
Qed.

#[local] Abbreviation axis1 w0 :=
  (spectral_axis (cube1vel_in (memory := memory) local_path w0)).
#[local] Abbreviation axis2 w0 :=
  (spectral_axis (cube2vel_in (memory := memory) local_path w0)).
#[local] Abbreviation smoothed w0 :=
  (cube2vel_spatialspectralsmooth_in (memory := memory)
     common_2beams local_path w0).

(** The variables and the world of a completed run, by the world it
    started in. *)
Lemma notebook_values (w0 w' : World) (ns : namespace) :
  notebook w0 = Ok (ns, w') ->
  exists (v1 v2 lo hi : R) (r : card),
    velocity_res (axis1 w0) = Ok v1 /\ velocity_res (axis2 w0) = Ok v2 /\
    np_min (axis1 w0) = Ok lo /\ np_max (axis1 w0) = Ok hi /\
    header (smoothed w0 v1 v2 lo hi) !! "RESTFRQ" = Some r /\
    ns.filename_1 ns = cached_file local_path w0 url_1 /\
    ns.filename_2 ns = cached_file local_path w0 url_2 /\
    ns.cube1vel ns = cube1vel_in (memory := memory) local_path w0 /\
    ns.cube2vel ns = cube2vel_in (memory := memory) local_path w0 /\
    ns.velocity_res_1 ns = v1 /\ ns.velocity_res_2 ns = v2 /\
    ns.cube2vel_spatialspectralsmooth ns = smoothed w0 v1 v2 lo hi /\
    ns.cube2vel_reproj ns =
      reproject (smoothed w0 v1 v2 lo hi)
        (<["RESTFRQ" := r]> (header (cube1vel_in (memory := memory) local_path w0))) /\
    ns.cube2daskvel_reproj ns =
      run_steps
        (spectral_steps lo hi v2 (spectral_smoothing_kernel (fwhm_gaussian v1 v2))
           (axis1 w0)
         ++ spatial_steps
              (common_2beams [beam (cube1vel_in (memory := memory) local_path w0);
                              beam (cube2vel_in (memory := memory) local_path w0)])
              (<["RESTFRQ" := r]> (header (cube1vel_in (memory := memory) local_path w0))))
        (read (cached_file local_path w0 url_2)) /\
    ns.tgthdr ns = fresh (dom (heap w0)) /\
    heap w' =
      alter (<["RESTFRQ" := r]>) (fresh (dom (heap w0)))
        (<[fresh (dom (<[fresh (dom (heap w0)) :=
                           header (cube1vel_in (memory := memory) local_path w0)]> (heap w0))) :=
             header (smoothed w0 v1 v2 lo hi)]>
           (<[fresh (dom (heap w0)) := header (cube1vel_in (memory := memory) local_path w0)]>
              (heap w0))) /\
    dl_cache w' =
      <[url_2 := cached_file local_path w0 url_2]>
        (<[url_1 := cached_file local_path w0 url_1]> (dl_cache w0)).
Proof.
  intros H. unfold run_notebook in H. run_inv H. same_results. simpl.
  downloads_inv.
  match goal with
  | Hf1 : dl_cache ?wa !! url_1 = Some ?f1,
    Hf2 : dl_cache ?wb !! url_2 = Some ?f2 |- _ =>
      assert (Hcf1 : f1 = cached_file local_path w0 url_1)
        by (unfold cached_file; destruct (dl_cache w0 !! url_1);
            destruct Hcase1 as [-> _]; reflexivity);
      assert (Hcf2 : f2 = cached_file local_path w0 url_2)
        by (unfold cached_file; destruct (dl_cache w0 !! url_2);
            destruct Hcase2 as [-> _]; reflexivity);
      assert (Hcache : dl_cache wb = <[url_2 := f2]> (<[url_1 := f1]> (dl_cache w0)))
  end.
  { apply map_eq. intros u.
    destruct (decide (u = url_2)) as [->|Hu2].
    { rewrite lookup_insert_eq. exact Hfile2. }
    rewrite lookup_insert_ne by congruence. rewrite Hother2 by exact Hu2.
    destruct (decide (u = url_1)) as [->|Hu1].
    { rewrite lookup_insert_eq. exact Hfile1. }
    rewrite lookup_insert_ne by congruence. apply Hother1. exact Hu1. }
  rewrite Hcache. clear Hcache Hfile1 Hfile2 Hother1 Hother2 Hcase1 Hcase2.
  subst. rewrite Hheap2, Hheap1 in *.
  unfold cube2vel_spatialspectralsmooth_in, cube1vel_in, cube2vel_in.
  match goal with
  | Hget : <[_ := ?h2]> (<[_ := ?h1]> ?hp) !! _ ≫= _ = Some ?v |- _ =>
      rewrite lookup_insert_eq in Hget; simpl in Hget;
      destruct (heap_after_cell_47 hp h1 h2 v) as (_ & _ & Htgt & _);
      rewrite Htgt; simpl
  end.
  do 5 eexists. repeat split; try eassumption; reflexivity.
Qed.

Lemma cached_file_after (w0 w' : World) (url : string) :
  dl_cache w' =
    <[url_2 := cached_file local_path w0 url_2]>
      (<[url_1 := cached_file local_path w0 url_1]> (dl_cache w0)) ->
  url = url_1 \/ url = url_2 ->
  cached_file local_path w' url = cached_file local_path w0 url.
Proof.
  intros Hc [->| ->]; unfold cached_file at 1; rewrite Hc.
  - rewrite lookup_insert_ne by (intros Heq; revert Heq; discriminate).
    rewrite lookup_insert_eq. reflexivity.
  - rewrite lookup_insert_eq. reflexivity.
Qed.

(** X12: running the notebook again on the world a run left repeats
    it: the download cache is unchanged, the cubes, channel widths and
    results are the same, and the second run makes a target header
    object of its own, with the same content, and leaves the target
    header of the first run as it was. *)
Theorem rerun_repeats_the_run (w0 w1 w2 : World) (ns ns' : namespace) :
  notebook w0 = Ok (ns, w1) ->
  notebook w1 = Ok (ns', w2) ->
  dl_cache w2 = dl_cache w1 /\
  ns.tgthdr ns' <> ns.tgthdr ns /\
  heap w2 !! ns.tgthdr ns = heap w1 !! ns.tgthdr ns /\
  heap w2 !! ns.tgthdr ns' = heap w1 !! ns.tgthdr ns /\
  ns.cube1vel ns' = ns.cube1vel ns /\
  ns.cube2vel ns' = ns.cube2vel ns /\
  ns.velocity_res_1 ns' = ns.velocity_res_1 ns /\
  ns.velocity_res_2 ns' = ns.velocity_res_2 ns /\
  ns.cube2vel_reproj ns' = ns.cube2vel_reproj ns /\
  ns.cube2daskvel_reproj ns' = ns.cube2daskvel_reproj ns.
Proof.
  intros H H'.
  destruct (notebook_values _ _ _ H)
    as (v1 & v2 & lo & hi & r & Hv1 & Hv2 & Hlo & Hhi & Hr & Hf1 & Hf2 & Hc1
        & Hc2 & Hr1 & Hr2 & Hs & Hp & Hdp & Ht & Hheap & Hcache).
  destruct (notebook_values _ _ _ H')
    as (v1' & v2' & lo' & hi' & r' & Hv1' & Hv2' & Hlo' & Hhi' & Hr' & Hf1'
        & Hf2' & Hc1' & Hc2' & Hr1' & Hr2' & Hs' & Hp' & Hdp' & Ht' & Hheap'
        & Hcache').
  assert (E1 : cached_file local_path w1 url_1 = cached_file local_path w0 url_1)
    by (apply cached_file_after; [exact Hcache | left; reflexivity]).
  assert (E2 : cached_file local_path w1 url_2 = cached_file local_path w0 url_2)
    by (apply cached_file_after; [exact Hcache | right; reflexivity]).
  unfold cube2vel_spatialspectralsmooth_in, cube1vel_in, cube2vel_in in *.
  rewrite E1, E2 in *.
  assert (v1' = v1) as -> by congruence. assert (v2' = v2) as -> by congruence.
  assert (lo' = lo) as -> by congruence. assert (hi' = hi) as -> by congruence.
  assert (r' = r) as -> by congruence.
  match type of Hheap with
  | heap w1 = alter _ _ (<[_ := ?h2]> (<[_ := ?h1]> _)) =>
      destruct (heap_after_cell_47 (heap w0) h1 h2 r)
        as (_ & _ & Htgt & _);
      destruct (heap_after_cell_47 (heap w1) h1 h2 r)
        as (_ & Hnew' & Htgt' & _ & Hframe')
  end.
  rewrite <- Hheap in Htgt. rewrite <- Hheap' in Htgt', Hframe'.
  rewrite <- Ht in Htgt. rewrite <- Ht' in Htgt', Hnew'.
  split; [|split; [|split; [|split]]].
  - rewrite Hcache'.
    rewrite (insert_id (dl_cache w1) url_1).
    + apply insert_id. rewrite Hcache. apply lookup_insert_eq.
    + rewrite Hcache.
      rewrite lookup_insert_ne by (intros Heq; revert Heq; discriminate).
      apply lookup_insert_eq.
  - intros Heq. rewrite Heq in Hnew'. congruence.
  - rewrite Htgt. apply Hframe'. exact Htgt.
  - rewrite Htgt, Htgt'. reflexivity.
  - repeat split; congruence.
Qed.

Lemma np_min_lower (a : list R) (lo y : R) :
  np_min a = Ok lo -> y ∈ a -> lo <= y.
Proof.
  destruct a as [|x t]; [discriminate|]. simpl. intros Hlo Hy.
  injection Hlo as <-. apply elem_of_cons in Hy as [->|Hy].
  - apply fold_left_Rmin_le.
  - apply fold_left_Rmin_lower. exact Hy.
Qed.

Lemma np_min_elem (a : list R) (lo : R) : np_min a = Ok lo -> lo ∈ a.
Proof.
  destruct a as [|x t]; [discriminate|]. simpl. intros Hlo.
  injection Hlo as <-. apply fold_left_Rmin_elem.
Qed.

Lemma np_max_upper (a : list R) (hi y : R) :
  np_max a = Ok hi -> y ∈ a -> y <= hi.
Proof.
  destruct a as [|x t]; [discriminate|]. simpl. intros Hhi Hy.
  injection Hhi as <-. apply elem_of_cons in Hy as [->|Hy].
  - apply fold_left_Rmax_ge.
  - apply fold_left_Rmax_upper. exact Hy.
Qed.

(** The cutout of cell 29, by the values of cells 25 and 29. *)
Lemma notebook_cutout (w0 w' : World) (ns : namespace) :
  notebook w0 = Ok (ns, w') ->
  exists lo hi : R,
    np_min (spectral_axis (ns.cube1vel ns)) = Ok lo /\
    np_max (spectral_axis (ns.cube1vel ns)) = Ok hi /\
    velocity_res (spectral_axis (ns.cube2vel ns)) = Ok (ns.velocity_res_2 ns) /\
    ns.cube2vel_cutout ns =
      spectral_slab (ns.cube2vel ns) (lo - ns.velocity_res_2 ns) hi.
Proof.
  intros H. unfold run_notebook in H. run_inv H. same_results. simpl.
  do 2 eexists. repeat split; try eassumption; reflexivity.
Qed.

(** X14: the cutout of cell 29 asks for the slab from
    [min - velocity_res_2] to [max] of [cube1vel]'s axis.  When the
    second cube's first channel spacing is not negative, the lower
    bound is at or below every entry of [cube1vel]'s axis and the
    bounds are in order; when it is not positive (a decreasing axis),
    the lower bound is at or above the minimum, which is a channel of
    [cube1vel]: the cutout has no buffer below it. *)
Theorem cutout_bounds (w0 w' : World) (ns : namespace) :
  notebook w0 = Ok (ns, w') ->
  exists lo hi : R,
    np_min (spectral_axis (ns.cube1vel ns)) = Ok lo /\
    np_max (spectral_axis (ns.cube1vel ns)) = Ok hi /\
    ns.cube2vel_cutout ns =
      spectral_slab (ns.cube2vel ns) (lo - ns.velocity_res_2 ns) hi /\
    lo <= hi /\
    (0 <= ns.velocity_res_2 ns ->
       lo - ns.velocity_res_2 ns <= hi /\
       forall y, y ∈ spectral_axis (ns.cube1vel ns) ->
                 lo - ns.velocity_res_2 ns <= y <= hi) /\
    (ns.velocity_res_2 ns <= 0 ->
       lo ∈ spectral_axis (ns.cube1vel ns) /\ lo <= lo - ns.velocity_res_2 ns).
Proof.
  intros H.
  destruct (notebook_cutout _ _ _ H) as (lo & hi & Hlo & Hhi & _ & Hcut).
  exists lo, hi.
  pose proof (np_min_elem _ _ Hlo) as Hin.
  pose proof (np_max_upper _ _ _ Hhi Hin) as Hle.
  pose proof (fun y => np_min_lower _ _ y Hlo) as Hlow.
  pose proof (fun y => np_max_upper _ _ y Hhi) as Hup.
  split; [assumption|]. split; [assumption|]. split; [exact Hcut|].
  split; [exact Hle|]. split.
  - intros Hpos. split; [lra|].
    intros y Hy. specialize (Hlow y Hy). specialize (Hup y Hy). lra.
  - intros Hneg. split; [exact Hin | lra].
Qed.

(** *** The whole pipeline *)



End NotebookWorld.

(** *** The factor between FWHM and standard deviation (cell 32) *)

Lemma ln_2_lt_3_4 : ln 2 < 3 / 4.
Proof.
  apply exp_lt_inv. rewrite exp_ln by lra.
  pose proof (exp_ineq1 (1 / 8)) as Hy.
  assert (Hy' : 9 / 8 < exp (1 / 8)) by lra. clear Hy.
  replace (3 / 4) with (1 / 8 + 1 / 8 + (1 / 8 + 1 / 8) + (1 / 8 + 1 / 8)) by lra.
  rewrite !exp_plus.
  set (y := exp (1 / 8)) in *.
  assert (Hy2 : 81 / 64 < y * y) by nra.
  assert (Hy4 : 6561 / 4096 < y * y * (y * y)) by nra.
  nra.
Qed.

(** X5: [fwhm_to_sigma], the square root of [8 ln 2], lies between 2
    and 5/2; so the [stddev] given to [Gaussian1DKernel] for a real
    positive width is between 2/5 and 1/2 of that width, and a [NaN]
    width gives a [NaN] [stddev]. *)
Theorem kernel_stddev_range :
  2 < fwhm_to_sigma < 5 / 2 /\
  (forall w, 0 < w ->
     exists s, kernel_stddev (Finite w) = Finite s /\
               2 / 5 * w < s < w / 2) /\
  kernel_stddev NaN = NaN.
Proof.
  assert (Hf : 2 < fwhm_to_sigma < 5 / 2).
  { unfold fwhm_to_sigma. pose proof ln_lt_2. pose proof ln_2_lt_3_4.
    assert (H2 : sqrt (2 * 2) = 2) by (apply sqrt_square; lra).
    assert (H52 : sqrt (5 / 2 * (5 / 2)) = 5 / 2) by (apply sqrt_square; lra).
    pose proof (sqrt_lt_1_alt (2 * 2) (8 * ln 2)) as Hlow.
    pose proof (sqrt_lt_1_alt (8 * ln 2) (5 / 2 * (5 / 2))) as Hup.
    rewrite H2 in Hlow. rewrite H52 in Hup.
    split; [apply Hlow | apply Hup]; lra. }
  split; [exact Hf|]. split; [|reflexivity].
  intros w Hw. exists (w / fwhm_to_sigma). split; [reflexivity|].
  assert (Hs : w / fwhm_to_sigma * fwhm_to_sigma = w) by (field; lra).
  assert (Hpos : 0 < w / fwhm_to_sigma).
  { apply Rdiv_lt_0_compat; lra. }
  split; nra.
Qed.

(** ** The further properties on the small library instance *)

Lemma network_accesses_in_order_witness :
  exists ns w',
    Recording.run = Ok (ns, w') /\
    net_log w' =
      [Fetch url_1; Fetch url_2;
       SplatalogueQuery " H2CS "; SplatalogueQuery "SiO"].
Proof.
  destruct recording_run_ok as (ns & w' & Hrun).
  exists ns, w'. split; [exact Hrun|].
  apply (network_accesses_in_order
           (memory := Recording.memory) (dask := Recording.dask)
           Recording.common_2beams Recording.path Recording.w0 w' ns Hrun).
Defined.

Lemma run_extends_world_witness :
  exists ns w',
    Recording.run = Ok (ns, w') /\
    dom (dl_cache w') = {[ url_1; url_2 ]} ∪ dom (dl_cache Recording.w0) /\
    exists hdr2 : positive,
      hdr2 <> ns.tgthdr ns /\
      dom (heap w') = {[ ns.tgthdr ns; hdr2 ]} ∪ dom (heap Recording.w0).
Proof.
  destruct recording_run_ok as (ns & w' & Hrun).
  exists ns, w'. split; [exact Hrun|].
  destruct (run_extends_world
              (memory := Recording.memory) (dask := Recording.dask)
              Recording.common_2beams Recording.path Recording.w0 w' ns Hrun)
    as (_ & Hcache & hdr2 & Hne & _ & _ & Hheap).
  split; [exact Hcache|]. exists hdr2. split; assumption.
Defined.

Lemma rerun_repeats_the_run_witness :
  exists ns w1 (ns' : ns.t nat Recording.cube Recording.lazy_cube) w2,
    Recording.run = Ok (ns, w1) /\
    run_notebook (memory := Recording.memory) (dask := Recording.dask)
      Recording.common_2beams Recording.path w1 = Ok (ns', w2) /\
    dl_cache w2 = dl_cache w1 /\
    ns.tgthdr ns' <> ns.tgthdr ns /\
    ns.cube2vel_reproj ns' = ns.cube2vel_reproj ns.
Proof.
  destruct recording_run_ok as (ns & w1 & Hrun).
  destruct (notebook_runs_again
              (memory := Recording.memory) (dask := Recording.dask)
              Recording.common_2beams Recording.path Recording.w0 w1 ns Hrun)
    as (ns' & w2 & Hrun').
  exists ns, w1, ns', w2. split; [exact Hrun|]. split; [exact Hrun'|].
  destruct (rerun_repeats_the_run
              (memory := Recording.memory) (dask := Recording.dask)
              Recording.common_2beams Recording.path
              Recording.w0 w1 w2 ns ns' Hrun Hrun')
    as (Hc & Ht & _ & _ & _ & _ & _ & _ & Hp & _).
  repeat split; assumption.
Defined.

Lemma cutout_bounds_witness :
  exists ns w',
    Recording.run = Ok (ns, w') /\
    ns.velocity_res_2 ns = 3 - 0 /\
    exists lo hi : R,
      np_min (spectral_axis (ns.cube1vel ns)) = Ok lo /\
      np_max (spectral_axis (ns.cube1vel ns)) = Ok hi /\
      lo - ns.velocity_res_2 ns <= hi.
Proof.
  destruct recording_run_ok as (ns & w' & Hrun).
  exists ns, w'. split; [exact Hrun|].
  assert (Hv2 : ns.velocity_res_2 ns = 3 - 0) by by_running Hrun.
  split; [exact Hv2|].
  destruct (cutout_bounds
              (memory := Recording.memory) (dask := Recording.dask)
              Recording.common_2beams Recording.path Recording.w0 w' ns Hrun)
    as (lo & hi & Hlo & Hhi & _ & _ & Hpos & _).
  exists lo, hi. split; [exact Hlo|]. split; [exact Hhi|].
  assert (Hv2pos : 0 <= ns.velocity_res_2 ns) by (rewrite Hv2; lra).
  exact (proj1 (Hpos Hv2pos)).
Defined.

(** ** The pipeline on the library instances *)





